(** * ArbitrationAdapter: ruling authentication and replay protection

    A shallow embedding of the Solidity contract [ArbitrationAdapter]
    (EIP-712 ruling verification, nonce replay protection, arbitrator
    rotation) and the properties of its three entry points.

    Solidity values are kept as the EVM has them: [uint256], [bytes32],
    [address] and [uint8] are integers in [Z] with their ranges written
    out, [bytes] is a list of bytes, a [mapping(bytes32 => bool)] is a
    finite map read with default [false].  A failing [require], a failing
    checked addition and a library revert stop the call; the transaction
    layer then rolls storage and logs back. *)

From Stdlib Require Import ZArith Lia Bool List.
From Stdlib Require Import Strings.String Strings.Byte.
From stdpp Require Import base option gmap.
Import ListNotations.

Open Scope Z_scope.

(** ** EVM value types *)

Abbreviation address := Z (only parsing).
Abbreviation bytes32 := Z (only parsing).
Abbreviation uint256 := Z (only parsing).
Abbreviation uint8 := Z (only parsing).
Abbreviation bytes := (list byte) (only parsing).

Module EVM.

Definition UINT256_MAX : Z := 2 ^ 256 - 1.

Definition is_uint256 (x : Z) : Prop := 0 <= x <= UINT256_MAX.

(** Errors of OpenZeppelin's [ECDSA] library. *)
Inductive ECDSAError : Type :=
| ECDSAInvalidSignature
| ECDSAInvalidSignatureLength (len : Z)
| ECDSAInvalidSignatureS (s : bytes32).

(** What a revert carries: [Error(string)] of a failed [require],
    [Panic(uint256)] of a failed built-in check, or a custom error of
    the signature library. *)
Inductive RevertReason : Type :=
| ErrorString (msg : string)
| Panic (code : Z)
| ECDSARevert (e : ECDSAError).

Inductive Result (A : Type) : Type :=
| Ok (a : A)
| Revert (r : RevertReason).
Arguments Ok {A} a.
Arguments Revert {A} r.

Definition PANIC_ARITHMETIC : Z := 17. (* 0x11 *)

(** [a + b] on [uint256] under Solidity ^0.8: checked, panics on overflow. *)
Definition checked_add (a b : uint256) : Result uint256 :=
  if a + b <=? UINT256_MAX then Ok (a + b) else Revert (Panic PANIC_ARITHMETIC).

Definition byte_of_Z (z : Z) : byte :=
  match Byte.of_N (Z.to_N (z mod 256)) with
  | Some b => b
  | None => x00
  end.

Definition Z_of_byte (b : byte) : Z := Z.of_N (Byte.to_N b).

(** Big-endian encoding of [z] on [n] bytes. *)
Fixpoint be_bytes (n : nat) (z : Z) : bytes :=
  match n with
  | O => []
  | S n' => be_bytes n' (z / 256) ++ [byte_of_Z z]
  end.

Definition be_value (bs : bytes) : Z :=
  fold_left (fun acc b => acc * 256 + Z_of_byte b) bs 0.

(** One 32-byte ABI word. *)
Definition abi_word (z : Z) : bytes := be_bytes 32 z.

(** [abi.encode] of static 32-byte values: the words in order. *)
Definition abi_encode (ws : list Z) : bytes := concat (map abi_word ws).

(** [abi.encodePacked(bytes32, uint256)]: both are already 32 bytes wide. *)
Definition abi_encodePacked2 (a : bytes32) (b : uint256) : bytes :=
  abi_word a ++ abi_word b.

Inductive RecoverResult : Type :=
| Recovered (signer : address)
| RecoverFailed (e : ECDSAError).

(** The imported primitives: [keccak256], [EIP712._hashTypedDataV4]
    (which closes over the domain separator built from NAME, VERSION, the
    chain id and the contract address, all fixed for one deployment) and
    [ECDSA.recover].  [ECDSA.recover] reverts instead of returning the
    zero address, and reverts on a signature that is not 65 bytes long.
    Arguments reach the contract already decoded, each within the range of
    its type. *)
Class Primitives : Type := {
  keccak256 : bytes -> bytes32;
  hashTypedDataV4 : bytes32 -> bytes32;
  ECDSA_recover : bytes32 -> bytes -> RecoverResult;
  ECDSA_recover_nonzero :
    forall digest sig, ECDSA_recover digest sig <> Recovered 0;
  ECDSA_recover_length :
    forall digest sig,
      Z.of_nat (List.length sig) <> 65 ->
      ECDSA_recover digest sig =
      RecoverFailed (ECDSAInvalidSignatureLength (Z.of_nat (List.length sig)));
}.

End EVM.
Import EVM.

(** ** The contract *)

Module ArbitrationAdapter.

(** [msg.sender] and [block.timestamp] of the running call. *)
Record Env : Type := mkEnv {
  msg_sender : address;
  block_timestamp : uint256;
}.

(** Storage: [address public arbitrator] and
    [mapping(bytes32 => bool) public usedNonces]. *)
Record Storage : Type := mkStorage {
  arbitrator : address;
  usedNonces : gmap Z bool;
}.

Inductive Event : Type :=
| ArbitratorChanged (newArbitrator : address)
| RulingSubmitted (orderId : bytes32) (ruling : uint8) (timestamp : uint256)
                  (nonce : uint256) (submitter : address).

(** Reading a Solidity mapping: absent keys read as [false]. *)
Definition used (m : gmap Z bool) (k : bytes32) : bool := default false (m !! k).

(** *** [view] functions: read the environment and storage, may revert *)

Definition View (A : Type) : Type := Env -> Storage -> Result A.

#[global] Instance View_ret : MRet View := fun A a _ _ => Ok a.
#[global] Instance View_bind : MBind View := fun A B f m env st =>
  match m env st with
  | Ok a => f a env st
  | Revert r => Revert r
  end.

Definition v_sender : View address := fun env _ => Ok (msg_sender env).
Definition v_now : View uint256 := fun env _ => Ok (block_timestamp env).
Definition v_arbitrator : View address := fun _ st => Ok (arbitrator st).
Definition v_usedNonces (k : bytes32) : View bool :=
  fun _ st => Ok (used (usedNonces st) k).
Definition v_pure {A} (r : Result A) : View A := fun _ _ => r.
Definition v_require (c : bool) (msg : string) : View unit :=
  fun _ _ => if c then Ok tt else Revert (ErrorString msg).

(** *** State-changing functions

    A running call carries the storage and the log entries emitted so
    far; when it stops on a revert it hands back both as they were at
    that point, and [transact] below discards them. *)

Record Frame : Type := mkFrame {
  storage : Storage;
  logs : list Event;
}.

Definition Exec (A : Type) : Type := Env -> Frame -> Frame * Result A.

#[global] Instance Exec_ret : MRet Exec := fun A a _ fr => (fr, Ok a).
#[global] Instance Exec_bind : MBind Exec := fun A B f m env fr =>
  match m env fr with
  | (fr', Ok a) => f a env fr'
  | (fr', Revert r) => (fr', Revert r)
  end.

Definition view {A} (v : View A) : Exec A :=
  fun env fr => (fr, v env (storage fr)).
Definition require (c : bool) (msg : string) : Exec unit :=
  view (v_require c msg).
Definition set_arbitrator (a : address) : Exec unit :=
  fun _ fr =>
    (mkFrame (mkStorage a (usedNonces (storage fr))) (logs fr), Ok tt).
Definition set_usedNonces (k : bytes32) (b : bool) : Exec unit :=
  fun _ fr =>
    (mkFrame (mkStorage (arbitrator (storage fr)) (<[k := b]> (usedNonces (storage fr))))
             (logs fr), Ok tt).
Definition emit (e : Event) : Exec unit :=
  fun _ fr => (mkFrame (storage fr) (logs fr ++ [e]), Ok tt).

(** The EIP-712 domain name and version handed to the [EIP712] constructor. *)
Definition NAME : string := "EscrowArbitration".
Definition VERSION : string := "1".

Section Contract.
Context `{P : Primitives}.

Definition RULING_TYPEHASH : bytes32 :=
  keccak256 (list_byte_of_string
    "Ruling(bytes32 orderId,uint8 ruling,uint256 timestamp,uint256 nonce)").

(** [modifier onlyArbitrator] *)
Definition onlyArbitrator {A} (body : Exec A) : Exec A :=
  sender ← view v_sender;
  arb ← view v_arbitrator;
  require (sender =? arb) "only arbitrator";;
  body.

Definition constructor (_arbitrator : address) : Storage :=
  mkStorage _arbitrator ∅.

Definition setArbitrator (a : address) : Exec unit :=
  onlyArbitrator (
    set_arbitrator a;;
    emit (ArbitratorChanged a)).

Definition ruling_digest (orderId : bytes32) (ruling : uint8)
    (timestamp nonce : uint256) : bytes32 :=
  let structHash :=
    keccak256 (abi_encode [RULING_TYPEHASH; orderId; ruling; timestamp; nonce]) in
  hashTypedDataV4 structHash.

Definition recover (digest : bytes32) (signature : bytes) : View address :=
  v_pure match ECDSA_recover digest signature with
         | Recovered signer => Ok signer
         | RecoverFailed e => Revert (ECDSARevert e)
         end.

Definition verifyRulingSignature (orderId : bytes32) (ruling : uint8)
    (timestamp nonce : uint256) (signature : bytes) : View bool :=
  now ← v_now;
  deadline ← v_pure (checked_add timestamp 3600);
  v_require (now <=? deadline) "signature expired";;
  let digest := ruling_digest orderId ruling timestamp nonce in
  signer ← recover digest signature;
  arb ← v_arbitrator;
  mret (signer =? arb).

Definition nonce_key (orderId : bytes32) (nonce : uint256) : bytes32 :=
  keccak256 (abi_encodePacked2 orderId nonce).

Definition submitRuling (orderId : bytes32) (ruling : uint8)
    (timestamp nonce : uint256) (signature : bytes) : Exec unit :=
  ok ← view (verifyRulingSignature orderId ruling timestamp nonce signature);
  require ok "bad signature";;
  seen ← view (v_usedNonces (nonce_key orderId nonce));
  require (negb seen) "nonce used";;
  set_usedNonces (nonce_key orderId nonce) true;;
  sender ← view v_sender;
  emit (RulingSubmitted orderId ruling timestamp nonce sender).

(** *** Transactions *)

Inductive Call : Type :=
| CallArbitrator
| CallUsedNonces (k : bytes32)
| CallSetArbitrator (a : address)
| CallVerifyRulingSignature (orderId : bytes32) (ruling : uint8)
    (timestamp nonce : uint256) (signature : bytes)
| CallSubmitRuling (orderId : bytes32) (ruling : uint8)
    (timestamp nonce : uint256) (signature : bytes).

Inductive RetVal : Type :=
| RetNone
| RetBool (b : bool)
| RetAddress (a : address).

Definition dispatch (c : Call) : Exec RetVal :=
  match c with
  | CallArbitrator => a ← view v_arbitrator; mret (RetAddress a)
  | CallUsedNonces k => b ← view (v_usedNonces k); mret (RetBool b)
  | CallSetArbitrator a => setArbitrator a;; mret RetNone
  | CallVerifyRulingSignature o r t n s =>
      b ← view (verifyRulingSignature o r t n s); mret (RetBool b)
  | CallSubmitRuling o r t n s => submitRuling o r t n s;; mret RetNone
  end.

Inductive Receipt : Type :=
| Success (ret : RetVal) (emitted : list Event)
| Failure (r : RevertReason).

(** One external call as a transaction: on a revert the storage is
    restored and no log entry survives. *)
Definition transact (env : Env) (c : Call) (st : Storage) : Storage * Receipt :=
  match dispatch c env (mkFrame st []) with
  | (fr, Ok v) => (storage fr, Success v (logs fr))
  | (_, Revert r) => (st, Failure r)
  end.

(** A history of transactions, each with its own sender and block time. *)
Fixpoint run (st : Storage) (txs : list (Env * Call)) : Storage * list Receipt :=
  match txs with
  | [] => (st, [])
  | (env, c) :: rest =>
      let '(st1, r) := transact env c st in
      let '(st2, rs) := run st1 rest in
      (st2, r :: rs)
  end.

Definition final (st : Storage) (txs : list (Env * Call)) : Storage :=
  fst (run st txs).
Definition receipts (st : Storage) (txs : list (Env * Call)) : list Receipt :=
  snd (run st txs).

Definition succeeded (r : Receipt) : bool :=
  match r with Success _ _ => true | Failure _ => false end.

End Contract.

End ArbitrationAdapter.

Import ArbitrationAdapter.

(** ** Error kinds of the interface

    The four kinds a caller can tell apart, and the revert data that
    signals each.  A malformed or unrecoverable signature surfaces as the
    signature library's own revert; a [Panic] belongs to no kind. *)

Inductive ErrorKind : Type :=
| SignatureExpired
| InvalidSignature
| NonceAlreadyUsed
| Unauthorized.

Definition error_kind (r : RevertReason) : option ErrorKind :=
  match r with
  | ErrorString msg =>
      if String.eqb msg "signature expired" then Some SignatureExpired
      else if String.eqb msg "bad signature" then Some InvalidSignature
      else if String.eqb msg "nonce used" then Some NonceAlreadyUsed
      else if String.eqb msg "only arbitrator" then Some Unauthorized
      else None
  | ECDSARevert _ => Some InvalidSignature
  | Panic _ => None
  end.

(** ** Vocabulary of the properties *)

Section Vocabulary.
Context `{P : Primitives}.

(** The signature part of [verifyRulingSignature], once the freshness
    check has passed. *)
Definition signer_check (st : Storage) (o : bytes32) (r : uint8)
    (t n : uint256) (s : bytes) : Result bool :=
  match ECDSA_recover (ruling_digest o r t n) s with
  | Recovered signer => Ok (signer =? arbitrator st)
  | RecoverFailed e => Revert (ECDSARevert e)
  end.

(** The freshness check of [verifyRulingSignature] passes. *)
Definition fresh (env : Env) (t : uint256) : Prop :=
  t + 3600 <= UINT256_MAX /\ block_timestamp env <= t + 3600.

(** The signature recovers to [who] over the ruling's digest. *)
Definition signed_by_identity (who : address) (o : bytes32) (r : uint8)
    (t n : uint256) (s : bytes) : Prop :=
  ECDSA_recover (ruling_digest o r t n) s = Recovered who.

(** The [(orderId, nonce)] pairs of the accepted submissions of a history. *)
Fixpoint accepted (txs : list (Env * Call)) (rs : list Receipt)
    : list (bytes32 * uint256) :=
  match txs, rs with
  | (_, CallSubmitRuling o _ _ n _) :: txs', Success _ _ :: rs' =>
      (o, n) :: accepted txs' rs'
  | _ :: txs', _ :: rs' => accepted txs' rs'
  | _, _ => []
  end.

(** Every caller of a history is a real account. *)
Definition callers_nonzero (txs : list (Env * Call)) : Prop :=
  Forall (fun tx => msg_sender (fst tx) <> 0) txs.

(** A receipt that neither accepts a ruling, nor rotates, nor reports a
    signature as valid. *)
Definition inert (c : Call) (r : Receipt) : Prop :=
  match c with
  | CallSetArbitrator _ => r = Failure (ErrorString "only arbitrator")
  | CallSubmitRuling _ _ _ _ _ => succeeded r = false
  | CallVerifyRulingSignature _ _ _ _ _ => r <> Success (RetBool true) []
  | CallArbitrator | CallUsedNonces _ => True
  end.

(** The replay record as a set: the keys that read [true], and how many
    there are. *)
Definition burned (m : gmap Z bool) : gmap Z bool :=
  filter (fun kv => snd kv = true) m.

Definition record_size (st : Storage) : nat := size (burned (usedNonces st)).

(** The log entries a receipt leaves, and the log of a whole history. *)
Definition emitted (r : Receipt) : list Event :=
  match r with
  | Success _ evs => evs
  | Failure _ => []
  end.

Definition history_log (rs : list Receipt) : list Event :=
  concat (map emitted rs).

(** No caller of a history is [who]. *)
Definition callers_differ (who : address) (txs : list (Env * Call)) : Prop :=
  Forall (fun tx => msg_sender (fst tx) <> who) txs.

(** The arbitrator an observer derives from a log: the identity of the
    last rotation record, or [a0] when the log has none. *)
Definition replay_arbitrator (a0 : address) (log : list Event) : address :=
  fold_left (fun a e =>
               match e with
               | ArbitratorChanged b => b
               | RulingSubmitted _ _ _ _ _ => a
               end) log a0.

(** The [(orderId, nonce)] pairs of the [RulingSubmitted] records of a
    log, in order. *)
Definition submitted_pairs (log : list Event) : list (bytes32 * uint256) :=
  omap (fun e =>
          match e with
          | RulingSubmitted o _ _ n _ => Some (o, n)
          | ArbitratorChanged _ => None
          end) log.

(** The reverts an external call can end with. *)
Definition verification_revert (t : uint256) (reason : RevertReason) : Prop :=
  reason = ErrorString "signature expired" \/
  (reason = Panic PANIC_ARITHMETIC /\ UINT256_MAX - 3600 < t) \/
  (exists e, reason = ECDSARevert e).

Definition may_revert_with (c : Call) (reason : RevertReason) : Prop :=
  match c with
  | CallArbitrator | CallUsedNonces _ => False
  | CallSetArbitrator _ => reason = ErrorString "only arbitrator"
  | CallVerifyRulingSignature _ _ t _ _ => verification_revert t reason
  | CallSubmitRuling _ _ t _ _ =>
      verification_revert t reason \/
      reason = ErrorString "bad signature" \/
      reason = ErrorString "nonce used"
  end.

(** *** The call boundary

    No function of the contract is [payable] and it has neither a
    [receive] nor a [fallback] function, and every parameter has a value
    type except the signature.  A message with value attached, a message
    whose data selects no function or does not decode, and a message with
    an argument word outside its type never enters a function body: it
    reverts with empty data and touches nothing. *)

Definition ADDRESS_MAX : Z := 2 ^ 160 - 1.
Definition UINT8_MAX : Z := 255.

Definition in_type (max x : Z) : bool := (0 <=? x) && (x <=? max).

Definition well_typed (c : Call) : bool :=
  match c with
  | CallArbitrator => true
  | CallUsedNonces k => in_type UINT256_MAX k
  | CallSetArbitrator a => in_type ADDRESS_MAX a
  | CallVerifyRulingSignature o r t n _
  | CallSubmitRuling o r t n _ =>
      in_type UINT256_MAX o && in_type UINT8_MAX r &&
      in_type UINT256_MAX t && in_type UINT256_MAX n
  end.

(** A message as it reaches the contract: the value sent with it and the
    call its data decodes to, if any. *)
Record Message : Type := mkMessage {
  msg_value : uint256;
  msg_call : option Call;
}.

(** Either a function body ran and left a receipt, or the message was
    refused at the boundary. *)
Inductive Delivery : Type :=
| Entered (rc : Receipt)
| Refused.

Definition deliver (env : Env) (m : Message) (st : Storage) : Storage * Delivery :=
  if msg_value m =? 0 then
    match msg_call m with
    | Some c =>
        if well_typed c
        then let '(st', rc) := transact env c st in (st', Entered rc)
        else (st, Refused)
    | None => (st, Refused)
    end
  else (st, Refused).

End Vocabulary.

(** ** A small executable instance of the primitives

    Enough structure to run the contract on concrete inputs: a
    polynomial rolling hash for [keccak256], a fixed domain separator,
    and a signature scheme in which [r] is the signer's address xor the
    low 160 bits of the digest, with the length, [s] and [v] checks of
    [ECDSA.recover]. *)

Module Toy.

Definition keccak (bs : bytes) : bytes32 :=
  fold_left (fun h b => (h * 257 + Z_of_byte b + 1) mod 2 ^ 256) bs 7.

Definition DOMAIN_SEPARATOR : bytes32 :=
  keccak (list_byte_of_string NAME ++ list_byte_of_string VERSION).

Definition typed (structHash : bytes32) : bytes32 :=
  keccak (byte_of_Z 25 :: byte_of_Z 1 :: abi_word DOMAIN_SEPARATOR ++ abi_word structHash).

Definition HALF_ORDER : Z := 2 ^ 255.

Definition ecrecover (digest : bytes32) (v : Z) (r s : bytes32) : address :=
  if (v =? 27) || (v =? 28) then Z.lxor r (digest mod 2 ^ 160) mod 2 ^ 160 else 0.

Definition recover (digest : bytes32) (sig : bytes) : RecoverResult :=
  if Z.of_nat (List.length sig) =? 65 then
    let r := be_value (firstn 32 sig) in
    let s := be_value (firstn 32 (skipn 32 sig)) in
    let v := be_value (skipn 64 sig) in
    if HALF_ORDER <? s then RecoverFailed (ECDSAInvalidSignatureS s)
    else
      let signer := ecrecover digest v r s in
      if signer =? 0 then RecoverFailed ECDSAInvalidSignature
      else Recovered signer
  else RecoverFailed (ECDSAInvalidSignatureLength (Z.of_nat (List.length sig))).

(** The signature of [signer] over [digest] in this scheme. *)
Definition sign (signer : address) (digest : bytes32) : bytes :=
  abi_word (Z.lxor signer (digest mod 2 ^ 160)) ++ abi_word 1 ++ [byte_of_Z 27].

#[global] Instance primitives : Primitives | 100.
Proof.
  refine {| keccak256 := keccak; hashTypedDataV4 := typed; ECDSA_recover := recover |}.
  - intros digest sig. unfold recover.
    destruct (Z.of_nat (List.length sig) =? 65); [|discriminate].
    destruct (HALF_ORDER <? _); [discriminate|].
    destruct (ecrecover _ _ _ _ =? 0) eqn:E; [discriminate|].
    apply Z.eqb_neq in E. congruence.
  - intros digest sig H. unfold recover.
    apply Z.eqb_neq in H. now rewrite H.
Defined.

(** A second signature of [signer] over the same [digest]. *)
Definition sign_again (signer : address) (digest : bytes32) : bytes :=
  abi_word (Z.lxor signer (digest mod 2 ^ 160)) ++ abi_word 2 ++ [byte_of_Z 28].

(** The scenario of the interface description: arbitrator [A], a later
    arbitrator [B], a ruling for order 1 issued at [T]. *)
Definition A : address := 0xA11CE.
Definition B : address := 0xB0B.
Definition T : uint256 := 1700000000.
Definition FAVOR_BUYER : uint8 := 1.

Definition signed_by (who : address) (o : bytes32) (r : uint8) (t n : uint256) : bytes :=
  sign who (ruling_digest o r t n).

Definition signed_again_by (who : address) (o : bytes32) (r : uint8) (t n : uint256) : bytes :=
  sign_again who (ruling_digest o r t n).

Definition at_time (sender : address) (now : uint256) : Env := mkEnv sender now.

End Toy.

(** ** Equations of the entry points *)

Section Equations.
Context `{P : Primitives}.

Lemma verify_eq o r t n s env st :
  verifyRulingSignature o r t n s env st =
  if t + 3600 <=? UINT256_MAX then
    if block_timestamp env <=? t + 3600 then signer_check st o r t n s
    else Revert (ErrorString "signature expired")
  else Revert (Panic PANIC_ARITHMETIC).
Proof.
  unfold verifyRulingSignature, signer_check, recover, checked_add.
  unfold mbind, View_bind, mret, View_ret, v_now, v_pure, v_require, v_arbitrator.
  destruct (t + 3600 <=? UINT256_MAX); [|reflexivity].
  destruct (block_timestamp env <=? t + 3600); [|reflexivity].
  destruct (ECDSA_recover _ s); reflexivity.
Qed.

Lemma verify_fresh o r t n s env st :
  fresh env t ->
  verifyRulingSignature o r t n s env st = signer_check st o r t n s.
Proof.
  intros [Hmax Hnow]. rewrite verify_eq.
  apply Z.leb_le in Hmax, Hnow. rewrite Hmax, Hnow. reflexivity.
Qed.

Lemma verify_never_accepts_without_signer o r t n s env st :
  signer_check st o r t n s <> Ok true ->
  verifyRulingSignature o r t n s env st <> Ok true.
Proof.
  intros Hc. rewrite verify_eq.
  destruct (t + 3600 <=? UINT256_MAX); [|discriminate].
  destruct (block_timestamp env <=? t + 3600); [exact Hc | discriminate].
Qed.

Lemma submit_eq o r t n s env fr :
  submitRuling o r t n s env fr =
  match verifyRulingSignature o r t n s env (storage fr) with
  | Revert reason => (fr, Revert reason)
  | Ok false => (fr, Revert (ErrorString "bad signature"))
  | Ok true =>
      if used (usedNonces (storage fr)) (nonce_key o n)
      then (fr, Revert (ErrorString "nonce used"))
      else (mkFrame (mkStorage (arbitrator (storage fr))
                               (<[nonce_key o n := true]> (usedNonces (storage fr))))
                    (logs fr ++ [RulingSubmitted o r t n (msg_sender env)]),
            Ok tt)
  end.
Proof.
  unfold submitRuling, require, view, set_usedNonces, emit.
  unfold mbind, Exec_bind, v_require, v_usedNonces, v_sender.
  destruct (verifyRulingSignature o r t n s env (storage fr)) as [[|]|reason];
    try reflexivity.
  cbn. destruct (used _ _); reflexivity.
Qed.

Lemma setArbitrator_eq a env fr :
  setArbitrator a env fr =
  if msg_sender env =? arbitrator (storage fr)
  then (mkFrame (mkStorage a (usedNonces (storage fr)))
                (logs fr ++ [ArbitratorChanged a]), Ok tt)
  else (fr, Revert (ErrorString "only arbitrator")).
Proof.
  unfold setArbitrator, onlyArbitrator, require, view, set_arbitrator, emit.
  unfold mbind, Exec_bind, v_require, v_sender, v_arbitrator.
  destruct (msg_sender env =? arbitrator (storage fr)); reflexivity.
Qed.

Lemma transact_submit o r t n s env st :
  transact env (CallSubmitRuling o r t n s) st =
  match verifyRulingSignature o r t n s env st with
  | Revert reason => (st, Failure reason)
  | Ok false => (st, Failure (ErrorString "bad signature"))
  | Ok true =>
      if used (usedNonces st) (nonce_key o n)
      then (st, Failure (ErrorString "nonce used"))
      else (mkStorage (arbitrator st) (<[nonce_key o n := true]> (usedNonces st)),
            Success RetNone [RulingSubmitted o r t n (msg_sender env)])
  end.
Proof.
  unfold transact, dispatch. unfold mbind at 1, Exec_bind.
  rewrite submit_eq. cbn [storage logs].
  destruct (verifyRulingSignature o r t n s env st) as [[|]|reason]; try reflexivity.
  destruct (used _ _); reflexivity.
Qed.

Lemma transact_verify o r t n s env st :
  transact env (CallVerifyRulingSignature o r t n s) st =
  (st, match verifyRulingSignature o r t n s env st with
       | Ok b => Success (RetBool b) []
       | Revert reason => Failure reason
       end).
Proof.
  unfold transact, dispatch, view. unfold mbind, Exec_bind. cbn [storage logs].
  destruct (verifyRulingSignature o r t n s env st); reflexivity.
Qed.

Lemma transact_setArbitrator a env st :
  transact env (CallSetArbitrator a) st =
  if msg_sender env =? arbitrator st
  then (mkStorage a (usedNonces st), Success RetNone [ArbitratorChanged a])
  else (st, Failure (ErrorString "only arbitrator")).
Proof.
  unfold transact, dispatch. unfold mbind at 1, Exec_bind.
  rewrite setArbitrator_eq. cbn [storage logs].
  destruct (msg_sender env =? arbitrator st); reflexivity.
Qed.

Lemma transact_getters env st :
  transact env CallArbitrator st = (st, Success (RetAddress (arbitrator st)) []) /\
  forall k, transact env (CallUsedNonces k) st =
            (st, Success (RetBool (used (usedNonces st) k)) []).
Proof. split; reflexivity. Qed.

End Equations.


(** ** Expiry *)

(** C3: for every payload with [issuedAt + 3600 < now] and any signature,
    submit fails with the SignatureExpired kind (revert "signature
    expired"), whatever the signature recovers to and whatever the replay
    record holds; storage is left as it was. *)
Theorem expired_submission_rejected `{P : Primitives} env st o r t n s :
  is_uint256 (block_timestamp env) ->
  t + 3600 < block_timestamp env ->
  verifyRulingSignature o r t n s env st = Revert (ErrorString "signature expired") /\
  transact env (CallSubmitRuling o r t n s) st =
    (st, Failure (ErrorString "signature expired")) /\
  error_kind (ErrorString "signature expired") = Some SignatureExpired.
Proof.
  intros [_ Hnow] Hold.
  assert (Hv : verifyRulingSignature o r t n s env st =
               Revert (ErrorString "signature expired")).
  { rewrite verify_eq.
    replace (t + 3600 <=? UINT256_MAX) with true by (symmetry; apply Z.leb_le; lia).
    replace (block_timestamp env <=? t + 3600) with false
      by (symmetry; apply Z.leb_gt; lia).
    reflexivity. }
  split; [exact Hv|]. split; [|reflexivity].
  rewrite transact_submit, Hv. reflexivity.
Qed.

(** A valid signature of the active arbitrator with an unused nonce,
    submitted 4000 time units after it was issued. *)
Lemma expired_submission_rejected_witness :
  signed_by_identity Toy.A 1 Toy.FAVOR_BUYER Toy.T 0x99
    (Toy.signed_by Toy.A 1 Toy.FAVOR_BUYER Toy.T 0x99) /\
  used (usedNonces (constructor Toy.A)) (nonce_key 1 0x99) = false /\
  transact (Toy.at_time 5 (Toy.T + 4000))
    (CallSubmitRuling 1 Toy.FAVOR_BUYER Toy.T 0x99
       (Toy.signed_by Toy.A 1 Toy.FAVOR_BUYER Toy.T 0x99))
    (constructor Toy.A) =
  (constructor Toy.A, Failure (ErrorString "signature expired")).
Proof.
  split; [vm_compute; reflexivity|]. split; [reflexivity|].
  apply (expired_submission_rejected (P := Toy.primitives)
           (Toy.at_time 5 (Toy.T + 4000)) (constructor Toy.A)).
  - split; vm_compute; discriminate.
  - vm_compute. reflexivity.
Defined.

(** ** Verification before replay protection *)

(** C2: whenever verification does not return true (expired timestamp,
    overflowing deadline, unrecoverable signature or a signer other than
    the arbitrator), submit reverts before any write: the frame at the
    point of the revert is the initial one, the reason does not depend on
    the replay record and is never "nonce used", and the replay key of
    the payload is not inserted. *)
Theorem verification_precedes_replay `{P : Primitives} env st o r t n s :
  verifyRulingSignature o r t n s env st <> Ok true ->
  exists reason,
    submitRuling o r t n s env (mkFrame st []) = (mkFrame st [], Revert reason) /\
    transact env (CallSubmitRuling o r t n s) st = (st, Failure reason) /\
    reason <> ErrorString "nonce used" /\
    (forall m,
        transact env (CallSubmitRuling o r t n s) (mkStorage (arbitrator st) m) =
        (mkStorage (arbitrator st) m, Failure reason)) /\
    (forall m,
        used (usedNonces (fst (transact env (CallSubmitRuling o r t n s)
                                 (mkStorage (arbitrator st) m))))
             (nonce_key o n) = used m (nonce_key o n)).
Proof.
  intros Hbad.
  assert (Hm : forall m, verifyRulingSignature o r t n s env (mkStorage (arbitrator st) m)
                         = verifyRulingSignature o r t n s env st).
  { intros m. rewrite !verify_eq. reflexivity. }
  destruct (verifyRulingSignature o r t n s env st) as [[|]|reason] eqn:Hv.
  - congruence.
  - exists (ErrorString "bad signature").
    rewrite submit_eq, transact_submit. cbn [storage]. rewrite Hv.
    repeat split; try discriminate.
    + intros m. rewrite transact_submit, Hm. reflexivity.
    + intros m. rewrite transact_submit, Hm. reflexivity.
  - exists reason.
    rewrite submit_eq, transact_submit. cbn [storage]. rewrite Hv.
    repeat split.
    + rewrite verify_eq in Hv. unfold signer_check in Hv.
      destruct (t + 3600 <=? UINT256_MAX); [|congruence].
      destruct (block_timestamp env <=? t + 3600); [|congruence].
      destruct (ECDSA_recover _ s); congruence.
    + intros m. rewrite transact_submit, Hm. reflexivity.
    + intros m. rewrite transact_submit, Hm. reflexivity.
Qed.

(** A signature by [B] while [A] is the arbitrator: rejected, nonce kept. *)
Lemma verification_precedes_replay_witness :
  exists reason,
    transact (Toy.at_time 5 (Toy.T + 100))
      (CallSubmitRuling 1 Toy.FAVOR_BUYER Toy.T 0x99
         (Toy.signed_by Toy.B 1 Toy.FAVOR_BUYER Toy.T 0x99))
      (constructor Toy.A) = (constructor Toy.A, Failure reason) /\
    reason <> ErrorString "nonce used".
Proof.
  destruct (verification_precedes_replay (P := Toy.primitives)
              (Toy.at_time 5 (Toy.T + 100)) (constructor Toy.A)
              1 Toy.FAVOR_BUYER Toy.T 0x99
              (Toy.signed_by Toy.B 1 Toy.FAVOR_BUYER Toy.T 0x99))
    as [reason (_ & Htx & Hne & _)].
  - vm_compute. discriminate.
  - exists reason. split; [exact Htx | exact Hne].
Defined.

(** ** Verification is a pure predicate *)

(** C5: [verifyRulingSignature] is determined by the payload, the
    signature, the active arbitrator and the block time: two storages
    that agree on the arbitrator, under two environments that agree on
    the time, give the same result whatever their replay records hold
    and whoever calls; and a call to it leaves the storage, hence the
    replay record, exactly as it was and emits nothing. *)
Theorem verify_pure `{P : Primitives} env1 env2 st1 st2 o r t n s :
  arbitrator st1 = arbitrator st2 ->
  block_timestamp env1 = block_timestamp env2 ->
  verifyRulingSignature o r t n s env1 st1 = verifyRulingSignature o r t n s env2 st2 /\
  snd (transact env1 (CallVerifyRulingSignature o r t n s) st1) =
  snd (transact env2 (CallVerifyRulingSignature o r t n s) st2) /\
  fst (transact env1 (CallVerifyRulingSignature o r t n s) st1) = st1 /\
  (forall k, used (usedNonces (fst (transact env1 (CallVerifyRulingSignature o r t n s) st1))) k
             = used (usedNonces st1) k) /\
  (forall v evs, snd (transact env1 (CallVerifyRulingSignature o r t n s) st1) = Success v evs ->
                 evs = []).
Proof.
  intros Harb Hnow.
  assert (Hv : verifyRulingSignature o r t n s env1 st1 =
               verifyRulingSignature o r t n s env2 st2).
  { rewrite !verify_eq. unfold signer_check. rewrite Harb, Hnow. reflexivity. }
  rewrite !transact_verify. cbn [fst snd]. rewrite Hv.
  repeat split; try reflexivity.
  intros v evs. destruct (verifyRulingSignature o r t n s env2 st2); congruence.
Qed.

(** The same call against an empty replay record and against one that
    already holds the payload's key, from two different callers. *)
Lemma verify_pure_witness :
  verifyRulingSignature 1 Toy.FAVOR_BUYER Toy.T 0x99
    (Toy.signed_by Toy.A 1 Toy.FAVOR_BUYER Toy.T 0x99)
    (Toy.at_time 5 (Toy.T + 100)) (constructor Toy.A) =
  verifyRulingSignature 1 Toy.FAVOR_BUYER Toy.T 0x99
    (Toy.signed_by Toy.A 1 Toy.FAVOR_BUYER Toy.T 0x99)
    (Toy.at_time 6 (Toy.T + 100))
    (mkStorage Toy.A (<[nonce_key 1 0x99 := true]> ∅)).
Proof.
  apply (verify_pure (P := Toy.primitives)
           (Toy.at_time 5 (Toy.T + 100)) (Toy.at_time 6 (Toy.T + 100))
           (constructor Toy.A) (mkStorage Toy.A (<[nonce_key 1 0x99 := true]> ∅)));
    reflexivity.
Defined.

(** ** Failure leaves no trace *)

Lemma burned_insert_fresh (m : gmap Z bool) k :
  used m k = false ->
  size (burned (<[k := true]> m)) = S (size (burned m)).
Proof.
  intros Hu. unfold burned.
  rewrite map_filter_insert_True by reflexivity.
  apply map_size_insert_None, map_lookup_filter_None.
  unfold used in Hu. destruct (m !! k) as [b|] eqn:Hk; [right|left; reflexivity].
  intros x Hx. cbn in *. congruence.
Qed.

(** C6: a failed submit leaves storage untouched (already at the point of
    the revert, before the rollback), so the replay record and the
    arbitrator are as before and every later history behaves as if the
    call had not happened; a successful submit keeps the arbitrator and
    changes the replay record by the single insertion of the payload's
    key, which was unused before, so that the record grows by exactly one
    entry. *)
Theorem submit_mutates_only_on_success `{P : Primitives} env st o r t n s :
  match transact env (CallSubmitRuling o r t n s) st with
  | (st', Failure reason) =>
      st' = st /\
      submitRuling o r t n s env (mkFrame st []) = (mkFrame st [], Revert reason) /\
      record_size st' = record_size st /\
      forall txs, run st' txs = run st txs
  | (st', Success _ _) =>
      arbitrator st' = arbitrator st /\
      used (usedNonces st) (nonce_key o n) = false /\
      usedNonces st' = <[nonce_key o n := true]> (usedNonces st) /\
      record_size st' = S (record_size st) /\
      forall k, k <> nonce_key o n ->
                usedNonces st' !! k = usedNonces st !! k
  end.
Proof.
  rewrite transact_submit, submit_eq. cbn [storage logs].
  destruct (verifyRulingSignature o r t n s env st) as [[|]|reason].
  - destruct (used (usedNonces st) (nonce_key o n)) eqn:Hu.
    + repeat split.
    + unfold record_size. cbn [arbitrator usedNonces].
      split; [reflexivity|]. split; [reflexivity|]. split; [reflexivity|].
      split; [apply burned_insert_fresh, Hu|].
      intros k Hk. apply lookup_insert_ne. congruence.
  - repeat split.
  - repeat split.
Qed.

(** A rejected and an accepted submission against the fresh contract. *)
Lemma submit_mutates_only_on_success_witness :
  fst (transact (Toy.at_time 5 (Toy.T + 100))
         (CallSubmitRuling 1 Toy.FAVOR_BUYER Toy.T 0x99
            (Toy.signed_by Toy.B 1 Toy.FAVOR_BUYER Toy.T 0x99))
         (constructor Toy.A)) = constructor Toy.A /\
  usedNonces (fst (transact (Toy.at_time 5 (Toy.T + 100))
         (CallSubmitRuling 1 Toy.FAVOR_BUYER Toy.T 0x99
            (Toy.signed_by Toy.A 1 Toy.FAVOR_BUYER Toy.T 0x99))
         (constructor Toy.A))) = <[nonce_key 1 0x99 := true]> ∅.
Proof.
  split.
  - assert (E : succeeded (snd (transact (Toy.at_time 5 (Toy.T + 100))
                  (CallSubmitRuling 1 Toy.FAVOR_BUYER Toy.T 0x99
                     (Toy.signed_by Toy.B 1 Toy.FAVOR_BUYER Toy.T 0x99))
                  (constructor Toy.A))) = false) by (vm_compute; reflexivity).
    pose proof (submit_mutates_only_on_success (P := Toy.primitives)
                  (Toy.at_time 5 (Toy.T + 100)) (constructor Toy.A)
                  1 Toy.FAVOR_BUYER Toy.T 0x99
                  (Toy.signed_by Toy.B 1 Toy.FAVOR_BUYER Toy.T 0x99)) as H.
    destruct (transact _ _ _) as [st' [v evs|reason]].
    + discriminate E.
    + exact (proj1 H).
  - assert (E : succeeded (snd (transact (Toy.at_time 5 (Toy.T + 100))
                  (CallSubmitRuling 1 Toy.FAVOR_BUYER Toy.T 0x99
                     (Toy.signed_by Toy.A 1 Toy.FAVOR_BUYER Toy.T 0x99))
                  (constructor Toy.A))) = true) by (vm_compute; reflexivity).
    pose proof (submit_mutates_only_on_success (P := Toy.primitives)
                  (Toy.at_time 5 (Toy.T + 100)) (constructor Toy.A)
                  1 Toy.FAVOR_BUYER Toy.T 0x99
                  (Toy.signed_by Toy.A 1 Toy.FAVOR_BUYER Toy.T 0x99)) as H.
    destruct (transact _ _ _) as [st' [v evs|reason]].
    + exact (proj1 (proj2 (proj2 H))).
    + discriminate E.
Defined.

(** ** Future-dated rulings *)

(** C10: the freshness check only bounds the age of a payload.  For a
    payload dated at or after the current block time, however far ahead,
    whose deadline [issuedAt + 3600] does not overflow, the check passes now
    and at every later time up to the deadline: the result of verification is
    that of the signature comparison alone, a signature of the arbitrator
    verifies, and with an unused nonce it is accepted. *)
Theorem future_dated_ruling_verifies `{P : Primitives} env env' st o r t n s :
  block_timestamp env <= t ->
  t + 3600 <= UINT256_MAX ->
  block_timestamp env' <= t + 3600 ->
  verifyRulingSignature o r t n s env st = signer_check st o r t n s /\
  verifyRulingSignature o r t n s env' st = signer_check st o r t n s /\
  (signed_by_identity (arbitrator st) o r t n s ->
     verifyRulingSignature o r t n s env st = Ok true /\
     verifyRulingSignature o r t n s env' st = Ok true /\
     (used (usedNonces st) (nonce_key o n) = false ->
        transact env' (CallSubmitRuling o r t n s) st =
        (mkStorage (arbitrator st) (<[nonce_key o n := true]> (usedNonces st)),
         Success RetNone [RulingSubmitted o r t n (msg_sender env')]))).
Proof.
  intros Hfuture Hmax Hlater.
  assert (E : forall e, block_timestamp e <= t + 3600 ->
                verifyRulingSignature o r t n s e st = signer_check st o r t n s).
  { intros e He. apply verify_fresh. split; assumption. }
  rewrite (E env) by lia. rewrite (E env') by lia.
  split; [reflexivity|]. split; [reflexivity|].
  intros Hsig. unfold signed_by_identity in Hsig.
  assert (Hc : signer_check st o r t n s = Ok true).
  { unfold signer_check. rewrite Hsig, Z.eqb_refl. reflexivity. }
  split; [exact Hc|]. split; [exact Hc|].
  intros Hunused. rewrite transact_submit, (E env') by lia.
  rewrite Hc, Hunused. reflexivity.
Qed.

(** A ruling dated a thousand million time units ahead of its signing
    time [T], accepted just before its own deadline. *)
Lemma future_dated_ruling_verifies_witness :
  verifyRulingSignature 1 Toy.FAVOR_BUYER (Toy.T + 1000000000) 0x99
    (Toy.signed_by Toy.A 1 Toy.FAVOR_BUYER (Toy.T + 1000000000) 0x99)
    (Toy.at_time 5 Toy.T) (constructor Toy.A) = Ok true /\
  succeeded (snd (transact (Toy.at_time 5 (Toy.T + 1000000000 + 3600))
    (CallSubmitRuling 1 Toy.FAVOR_BUYER (Toy.T + 1000000000) 0x99
       (Toy.signed_by Toy.A 1 Toy.FAVOR_BUYER (Toy.T + 1000000000) 0x99))
    (constructor Toy.A))) = true.
Proof.
  destruct (future_dated_ruling_verifies (P := Toy.primitives)
              (Toy.at_time 5 Toy.T) (Toy.at_time 5 (Toy.T + 1000000000 + 3600))
              (constructor Toy.A) 1 Toy.FAVOR_BUYER (Toy.T + 1000000000) 0x99
              (Toy.signed_by Toy.A 1 Toy.FAVOR_BUYER (Toy.T + 1000000000) 0x99))
    as (_ & _ & H).
  - vm_compute. discriminate.
  - vm_compute. discriminate.
  - vm_compute. discriminate.
  - destruct H as (Hv & _ & Hs); [vm_compute; reflexivity|].
    split; [exact Hv|]. rewrite Hs; reflexivity.
Defined.

(** ** Malformed signatures *)

(** C7 as stated fails on a payload that does not pass the freshness
    check: with a one-byte signature on a ruling issued 4000 time units
    ago, both entry points stop at the expiry check, and the revert is of
    the SignatureExpired kind, not InvalidSignature; with the same
    signature on a ruling dated [UINT256_MAX] the deadline overflows and
    both stop on the arithmetic [Panic], which is none of the four
    kinds. *)
Lemma malformed_signature_on_expired_payload :
  Z.of_nat (List.length [x00]) <> 65 /\
  transact (Toy.at_time 5 (Toy.T + 4000))
    (CallVerifyRulingSignature 1 Toy.FAVOR_BUYER Toy.T 0x99 [x00]) (constructor Toy.A) =
  (constructor Toy.A, Failure (ErrorString "signature expired")) /\
  transact (Toy.at_time 5 (Toy.T + 4000))
    (CallSubmitRuling 1 Toy.FAVOR_BUYER Toy.T 0x99 [x00]) (constructor Toy.A) =
  (constructor Toy.A, Failure (ErrorString "signature expired")) /\
  error_kind (ErrorString "signature expired") <> Some InvalidSignature /\
  transact (Toy.at_time 5 (Toy.T + 100))
    (CallSubmitRuling 1 Toy.FAVOR_BUYER UINT256_MAX 0x99 [x00]) (constructor Toy.A) =
  (constructor Toy.A, Failure (Panic PANIC_ARITHMETIC)) /\
  error_kind (Panic PANIC_ARITHMETIC) = None.
Proof.
  split; [vm_compute; discriminate|].
  split; [vm_compute; reflexivity|].
  split; [vm_compute; reflexivity|].
  split; [vm_compute; discriminate|].
  split; [vm_compute; reflexivity|].
  reflexivity.
Qed.

(** C7 (amended): on a payload that passes the freshness check, a
    signature that [ECDSA.recover] cannot recover -- in particular one
    that is not 65 bytes long -- makes both verify and submit revert with
    the library's error, of the InvalidSignature kind, and storage is
    left as it was; on any payload such a signature ends both calls in a
    revert.  For a fresh payload signed by the active arbitrator, verify
    returns true and submit can only fail on a used nonce. *)
Theorem malformed_signature_rejected `{P : Primitives} env st o r t n s :
  (forall e, ECDSA_recover (ruling_digest o r t n) s = RecoverFailed e ->
     (exists reason,
        verifyRulingSignature o r t n s env st = Revert reason /\
        transact env (CallVerifyRulingSignature o r t n s) st = (st, Failure reason) /\
        transact env (CallSubmitRuling o r t n s) st = (st, Failure reason)) /\
     (fresh env t ->
        verifyRulingSignature o r t n s env st = Revert (ECDSARevert e) /\
        transact env (CallVerifyRulingSignature o r t n s) st = (st, Failure (ECDSARevert e)) /\
        transact env (CallSubmitRuling o r t n s) st = (st, Failure (ECDSARevert e)) /\
        error_kind (ECDSARevert e) = Some InvalidSignature)) /\
  (Z.of_nat (List.length s) <> 65 ->
     ECDSA_recover (ruling_digest o r t n) s =
     RecoverFailed (ECDSAInvalidSignatureLength (Z.of_nat (List.length s)))) /\
  (fresh env t -> signed_by_identity (arbitrator st) o r t n s ->
     verifyRulingSignature o r t n s env st = Ok true /\
     forall reason,
       snd (transact env (CallSubmitRuling o r t n s) st) = Failure reason ->
       reason = ErrorString "nonce used").
Proof.
  split; [|split].
  - intros e He.
    assert (Hc : signer_check st o r t n s = Revert (ECDSARevert e)).
    { unfold signer_check. rewrite He. reflexivity. }
    split.
    + rewrite transact_verify, transact_submit, verify_eq, Hc.
      destruct (t + 3600 <=? UINT256_MAX);
        [destruct (block_timestamp env <=? t + 3600)|]; eauto.
    + intros Hfresh.
      rewrite transact_verify, transact_submit, (verify_fresh _ _ _ _ _ _ _ Hfresh), Hc.
      repeat split.
  - apply ECDSA_recover_length.
  - intros Hfresh Hsig. unfold signed_by_identity in Hsig.
    assert (Hv : verifyRulingSignature o r t n s env st = Ok true).
    { rewrite (verify_fresh _ _ _ _ _ _ _ Hfresh). unfold signer_check.
      rewrite Hsig, Z.eqb_refl. reflexivity. }
    split; [exact Hv|].
    intros reason. rewrite transact_submit, Hv.
    destruct (used _ _); cbn [snd]; congruence.
Qed.

(** A one-byte signature on a fresh payload. *)
Lemma malformed_signature_rejected_witness :
  transact (Toy.at_time 5 (Toy.T + 100))
    (CallSubmitRuling 1 Toy.FAVOR_BUYER Toy.T 0x99 [x00]) (constructor Toy.A) =
  (constructor Toy.A, Failure (ECDSARevert (ECDSAInvalidSignatureLength 1))) /\
  error_kind (ECDSARevert (ECDSAInvalidSignatureLength 1)) = Some InvalidSignature.
Proof.
  destruct (malformed_signature_rejected (P := Toy.primitives)
              (Toy.at_time 5 (Toy.T + 100)) (constructor Toy.A)
              1 Toy.FAVOR_BUYER Toy.T 0x99 [x00]) as (Hbad & _ & _).
  destruct (Hbad (ECDSAInvalidSignatureLength 1)) as (_ & Hfresh).
  - vm_compute. reflexivity.
  - destruct Hfresh as (_ & _ & Hs & Hk).
    + split; vm_compute; discriminate.
    + split; [exact Hs | exact Hk].
Defined.

(** ** Rotation *)




(** ** The audit log *)

(** C8 as stated fails: the record of an accepted submission is the same
    whether the ruling is accepted at [T + 100] or at [T + 200], and the
    record of a rotation is the same at [T + 300] and at [T + 400], so no
    field of either record is the time of acceptance. *)
Lemma records_lack_acceptance_time :
  snd (transact (Toy.at_time 5 (Toy.T + 100))
         (CallSubmitRuling 1 Toy.FAVOR_BUYER Toy.T 0x99
            (Toy.signed_by Toy.A 1 Toy.FAVOR_BUYER Toy.T 0x99)) (constructor Toy.A)) =
  Success RetNone [RulingSubmitted 1 Toy.FAVOR_BUYER Toy.T 0x99 5] /\
  snd (transact (Toy.at_time 5 (Toy.T + 200))
         (CallSubmitRuling 1 Toy.FAVOR_BUYER Toy.T 0x99
            (Toy.signed_by Toy.A 1 Toy.FAVOR_BUYER Toy.T 0x99)) (constructor Toy.A)) =
  Success RetNone [RulingSubmitted 1 Toy.FAVOR_BUYER Toy.T 0x99 5] /\
  snd (transact (Toy.at_time Toy.A (Toy.T + 300)) (CallSetArbitrator Toy.B)
         (constructor Toy.A)) =
  Success RetNone [ArbitratorChanged Toy.B] /\
  snd (transact (Toy.at_time Toy.A (Toy.T + 400)) (CallSetArbitrator Toy.B)
         (constructor Toy.A)) =
  Success RetNone [ArbitratorChanged Toy.B] /\
  ~ (exists stamp : Event -> uint256,
       forall env c st st' v evs,
         transact (P := Toy.primitives) env c st = (st', Success v evs) ->
         Forall (fun e => stamp e = block_timestamp env) evs).
Proof.
  assert (H1 : transact (Toy.at_time Toy.A (Toy.T + 300)) (CallSetArbitrator Toy.B)
                 (constructor Toy.A) =
               (mkStorage Toy.B ∅, Success RetNone [ArbitratorChanged Toy.B]))
    by (vm_compute; reflexivity).
  assert (H2 : transact (Toy.at_time Toy.A (Toy.T + 400)) (CallSetArbitrator Toy.B)
                 (constructor Toy.A) =
               (mkStorage Toy.B ∅, Success RetNone [ArbitratorChanged Toy.B]))
    by (vm_compute; reflexivity).
  split; [vm_compute; reflexivity|].
  split; [vm_compute; reflexivity|].
  split; [rewrite H1; reflexivity|].
  split; [rewrite H2; reflexivity|].
  intros [stamp Hstamp].
  pose proof (Hstamp _ _ _ _ _ _ H1) as F1.
  pose proof (Hstamp _ _ _ _ _ _ H2) as F2.
  inversion F1 as [|? ? E1 _]. inversion F2 as [|? ? E2 _].
  rewrite E1 in E2. vm_compute in E2. discriminate.
Qed.

(** C8 (amended): every accepted submission emits exactly one
    [RulingSubmitted] record carrying orderId, ruling, the payload's
    issuedAt, nonce and the caller's address, and every successful
    rotation emits exactly one [ArbitratorChanged] record carrying the
    new identity; the records are determined by the call and its caller,
    not by the block time; a reverted call leaves no record, and the log
    of a history only grows by appending. *)
Theorem accepted_calls_emit_their_record `{P : Primitives} env st :
  (forall o r t n s st' v evs,
      transact env (CallSubmitRuling o r t n s) st = (st', Success v evs) ->
      evs = [RulingSubmitted o r t n (msg_sender env)]) /\
  (forall a st' v evs,
      transact env (CallSetArbitrator a) st = (st', Success v evs) ->
      evs = [ArbitratorChanged a]) /\
  (forall c env2,
      msg_sender env2 = msg_sender env ->
      succeeded (snd (transact env c st)) = true ->
      succeeded (snd (transact env2 c st)) = true ->
      emitted (snd (transact env2 c st)) = emitted (snd (transact env c st))) /\
  (forall c, succeeded (snd (transact env c st)) = false ->
             emitted (snd (transact env c st)) = []) /\
  (forall txs1 txs2,
      history_log (receipts st (txs1 ++ txs2)) =
      history_log (receipts st txs1) ++ history_log (receipts (final st txs1) txs2)).
Proof.
  split; [|split; [|split; [|split]]].
  - intros o r t n s st' v evs. rewrite transact_submit.
    destruct (verifyRulingSignature o r t n s env st) as [[|]|reason];
      [destruct (used _ _)| |]; congruence.
  - intros a st' v evs. rewrite transact_setArbitrator.
    destruct (msg_sender env =? arbitrator st); congruence.
  - intros c env2 Hsender. destruct c as [|k|a|o r t n s|o r t n s].
    + reflexivity.
    + reflexivity.
    + rewrite !transact_setArbitrator, Hsender.
      destruct (msg_sender env =? arbitrator st); reflexivity.
    + rewrite !transact_verify. cbn [snd].
      destruct (verifyRulingSignature o r t n s env st),
               (verifyRulingSignature o r t n s env2 st); cbn; congruence.
    + rewrite !transact_submit.
      destruct (verifyRulingSignature o r t n s env st) as [[|]|?],
               (verifyRulingSignature o r t n s env2 st) as [[|]|?];
        try (cbn; congruence);
        destruct (used _ _); cbn; congruence.
  - intros c. destruct (transact env c st) as [st' [v evs|reason]]; cbn; congruence.
  - intros txs1. revert st. induction txs1 as [|[e c] txs1 IH]; intros st0 txs2.
    + reflexivity.
    + unfold receipts, final in *. cbn [app run].
      destruct (transact e c st0) as [st1 rc] eqn:E1.
      specialize (IH st1 txs2).
      destruct (run st1 (txs1 ++ txs2)) as [sta ra].
      destruct (run st1 txs1) as [stb rb]. cbn [fst snd] in *.
      unfold history_log in *. cbn [map concat]. rewrite IH.
      apply app_assoc.
Qed.

(** The record of the accepted ruling of the scenario. *)
Lemma accepted_calls_emit_their_record_witness :
  emitted (snd (transact (Toy.at_time 5 (Toy.T + 100))
                  (CallSubmitRuling 1 Toy.FAVOR_BUYER Toy.T 0x99
                     (Toy.signed_by Toy.A 1 Toy.FAVOR_BUYER Toy.T 0x99))
                  (constructor Toy.A))) =
  [RulingSubmitted 1 Toy.FAVOR_BUYER Toy.T 0x99 5].
Proof.
  assert (Hs : succeeded (snd (transact (Toy.at_time 5 (Toy.T + 100))
                 (CallSubmitRuling 1 Toy.FAVOR_BUYER Toy.T 0x99
                    (Toy.signed_by Toy.A 1 Toy.FAVOR_BUYER Toy.T 0x99))
                 (constructor Toy.A))) = true) by (vm_compute; reflexivity).
  destruct (transact (Toy.at_time 5 (Toy.T + 100))
              (CallSubmitRuling 1 Toy.FAVOR_BUYER Toy.T 0x99
                 (Toy.signed_by Toy.A 1 Toy.FAVOR_BUYER Toy.T 0x99))
              (constructor Toy.A)) as [st' [v evs|reason]] eqn:E.
  - apply (proj1 (accepted_calls_emit_their_record (P := Toy.primitives)
                    (Toy.at_time 5 (Toy.T + 100)) (constructor Toy.A))
             1 Toy.FAVOR_BUYER Toy.T 0x99
             (Toy.signed_by Toy.A 1 Toy.FAVOR_BUYER Toy.T 0x99) st' v evs E).
  - discriminate Hs.
Defined.

(** ** Rotation is unvalidated *)

Section ZeroArbitrator.
Context `{P : Primitives}.

(** With the zero address as arbitrator no signature compares equal to it. *)
Lemma verify_zero_arbitrator env st o r t n s :
  arbitrator st = 0 ->
  verifyRulingSignature o r t n s env st <> Ok true.
Proof.
  intros Hz. apply verify_never_accepts_without_signer. unfold signer_check.
  destruct (ECDSA_recover (ruling_digest o r t n) s) as [signer|e] eqn:Hrec;
    [|discriminate].
  rewrite Hz. destruct (signer =? 0) eqn:E; [|discriminate].
  apply Z.eqb_eq in E. subst signer.
  exfalso. exact (ECDSA_recover_nonzero _ _ Hrec).
Qed.

Lemma zero_arbitrator_step env c st :
  arbitrator st = 0 ->
  msg_sender env <> 0 ->
  fst (transact env c st) = st /\ inert c (snd (transact env c st)).
Proof.
  intros Hz Hcaller. destruct c as [|k|a|o r t n s|o r t n s].
  - split; reflexivity.
  - split; reflexivity.
  - rewrite transact_setArbitrator, Hz.
    replace (msg_sender env =? 0) with false
      by (symmetry; apply Z.eqb_neq; exact Hcaller).
    split; reflexivity.
  - rewrite transact_verify. split; [reflexivity|]. cbn [snd inert].
    pose proof (verify_zero_arbitrator env st o r t n s Hz) as Hv.
    destruct (verifyRulingSignature o r t n s env st) as [[|]|reason]; congruence.
  - rewrite transact_submit.
    pose proof (verify_zero_arbitrator env st o r t n s Hz) as Hv.
    destruct (verifyRulingSignature o r t n s env st) as [[|]|reason];
      [congruence| |]; split; reflexivity.
Qed.

End ZeroArbitrator.

(** C9: [setArbitrator] checks only its caller.  Called by the current
    arbitrator it succeeds for every argument, the zero address and the
    current identity included, and makes the argument the arbitrator.
    Once the arbitrator is the zero address, in every later history of
    calls from real accounts each rotation reverts with "only
    arbitrator", no submission is accepted, no verification returns true,
    and the storage never changes again. *)
Theorem rotation_unvalidated `{P : Primitives} :
  (forall env st a,
      msg_sender env = arbitrator st ->
      transact env (CallSetArbitrator a) st =
      (mkStorage a (usedNonces st), Success RetNone [ArbitratorChanged a])) /\
  (forall st txs,
      arbitrator st = 0 ->
      callers_nonzero txs ->
      final st txs = st /\
      Forall2 inert (map snd txs) (receipts st txs)) /\
  (forall env st txs,
      msg_sender env = arbitrator st ->
      callers_nonzero txs ->
      let st0 := fst (transact env (CallSetArbitrator 0) st) in
      st0 = mkStorage 0 (usedNonces st) /\
      final st0 txs = st0 /\
      Forall2 inert (map snd txs) (receipts st0 txs)).
Proof.
  assert (Hrot : forall env st a,
             msg_sender env = arbitrator st ->
             transact env (CallSetArbitrator a) st =
             (mkStorage a (usedNonces st), Success RetNone [ArbitratorChanged a])).
  { intros env st a Hcaller. rewrite transact_setArbitrator.
    apply Z.eqb_eq in Hcaller. rewrite Hcaller. reflexivity. }
  assert (Hdead : forall st txs,
             arbitrator st = 0 ->
             callers_nonzero txs ->
             final st txs = st /\ Forall2 inert (map snd txs) (receipts st txs)).
  { intros st txs Hz Hcallers. unfold final, receipts.
    induction Hcallers as [|[env c] txs Hc Hrest IH].
    - split; [reflexivity | constructor].
    - cbn [run map snd].
      destruct (zero_arbitrator_step env c st Hz Hc) as [Hst Hin].
      destruct (transact env c st) as [st1 rc]. cbn [fst snd] in Hst, Hin.
      subst st1. destruct (run st txs) as [st2 rs]. cbn [fst snd] in *.
      destruct IH as [IH1 IH2]. split; [exact IH1|].
      constructor; assumption. }
  split; [exact Hrot|]. split; [exact Hdead|].
  intros env st txs Hcaller Hcallers st0. subst st0.
  rewrite (Hrot env st 0 Hcaller). cbn [fst].
  split; [reflexivity|]. apply Hdead; [reflexivity | exact Hcallers].
Qed.

(** [A] rotates to the zero address; afterwards neither [A] nor [B] can
    rotate again and a fresh ruling signed by [A] is rejected. *)
Lemma rotation_unvalidated_witness :
  transact (Toy.at_time Toy.A (Toy.T + 300)) (CallSetArbitrator 0) (constructor Toy.A) =
  (mkStorage 0 ∅, Success RetNone [ArbitratorChanged 0]) /\
  transact (Toy.at_time Toy.A (Toy.T + 300)) (CallSetArbitrator Toy.A) (constructor Toy.A) =
  (mkStorage Toy.A ∅, Success RetNone [ArbitratorChanged Toy.A]) /\
  final (mkStorage 0 ∅)
    [ (Toy.at_time Toy.A (Toy.T + 400), CallSetArbitrator Toy.A);
      (Toy.at_time Toy.B (Toy.T + 400), CallSetArbitrator Toy.B);
      (Toy.at_time 5 (Toy.T + 400),
       CallSubmitRuling 1 Toy.FAVOR_BUYER Toy.T 0x99
         (Toy.signed_by Toy.A 1 Toy.FAVOR_BUYER Toy.T 0x99)) ] = mkStorage 0 ∅.
Proof.
  split; [|split].
  - apply (proj1 (rotation_unvalidated (P := Toy.primitives))
             (Toy.at_time Toy.A (Toy.T + 300)) (constructor Toy.A) 0).
    reflexivity.
  - apply (proj1 (rotation_unvalidated (P := Toy.primitives))
             (Toy.at_time Toy.A (Toy.T + 300)) (constructor Toy.A) Toy.A).
    reflexivity.
  - refine (proj1 (proj1 (proj2 (rotation_unvalidated (P := Toy.primitives)))
                     (mkStorage 0 ∅) _ eq_refl _)).
    unfold callers_nonzero.
    constructor; [vm_compute; discriminate|].
    constructor; [vm_compute; discriminate|].
    constructor; [vm_compute; discriminate|].
    constructor.
Defined.

(** ** Replay protection *)

Section ReplayRecord.
Context `{P : Primitives}.

Lemma final_cons env c st txs :
  final st ((env, c) :: txs) = final (fst (transact env c st)) txs.
Proof.
  unfold final. cbn [run].
  destruct (transact env c st) as [st1 rc]. cbn [fst].
  destruct (run st1 txs); reflexivity.
Qed.

Lemma receipts_cons env c st txs :
  receipts st ((env, c) :: txs) =
  snd (transact env c st) :: receipts (fst (transact env c st)) txs.
Proof.
  unfold receipts. cbn [run].
  destruct (transact env c st) as [st1 rc]. cbn [fst snd].
  destruct (run st1 txs); reflexivity.
Qed.

Lemma final_app st txs1 txs2 :
  final st (txs1 ++ txs2) = final (final st txs1) txs2.
Proof.
  revert st. induction txs1 as [|[env c] txs1 IH]; intros st; [reflexivity|].
  cbn [app]. rewrite !final_cons. apply IH.
Qed.

Lemma used_insert (m : gmap Z bool) k k' :
  used (<[k := true]> m) k' = if decide (k = k') then true else used m k'.
Proof.
  unfold used. rewrite lookup_insert. destruct (decide (k = k')); reflexivity.
Qed.

(** No call ever clears an entry of the replay record. *)
Lemma transact_used_mono env c st k :
  used (usedNonces st) k = true ->
  used (usedNonces (fst (transact env c st))) k = true.
Proof.
  intros Hk. destruct c as [|k0|a|o r t n s|o r t n s].
  - exact Hk.
  - exact Hk.
  - rewrite transact_setArbitrator.
    destruct (msg_sender env =? arbitrator st); exact Hk.
  - rewrite transact_verify. exact Hk.
  - rewrite transact_submit.
    destruct (verifyRulingSignature o r t n s env st) as [[|]|reason]; try exact Hk.
    destruct (used (usedNonces st) (nonce_key o n)); [exact Hk|].
    cbn [fst usedNonces]. rewrite used_insert.
    destruct (decide (nonce_key o n = k)); [reflexivity | exact Hk].
Qed.

Lemma run_used_mono st txs k :
  used (usedNonces st) k = true ->
  used (usedNonces (final st txs)) k = true.
Proof.
  revert st. induction txs as [|[env c] txs IH]; intros st Hk; [exact Hk|].
  rewrite final_cons. apply IH, transact_used_mono, Hk.
Qed.

(** An accepted submission found its key unused and leaves it used. *)
Lemma accepted_burns env st o r t n s :
  succeeded (snd (transact env (CallSubmitRuling o r t n s) st)) = true ->
  used (usedNonces st) (nonce_key o n) = false /\
  used (usedNonces (fst (transact env (CallSubmitRuling o r t n s) st))) (nonce_key o n) = true.
Proof.
  rewrite transact_submit.
  destruct (verifyRulingSignature o r t n s env st) as [[|]|reason]; try discriminate.
  destruct (used (usedNonces st) (nonce_key o n)) eqn:Hu; [discriminate|].
  intros _. split; [reflexivity|].
  cbn [fst usedNonces]. rewrite used_insert.
  destruct (decide (nonce_key o n = nonce_key o n)); congruence.
Qed.

(** Against a used key a submission reverts; "nonce used" when it verifies. *)
Lemma burned_submit_fails env st o r t n s :
  used (usedNonces st) (nonce_key o n) = true ->
  exists reason,
    transact env (CallSubmitRuling o r t n s) st = (st, Failure reason) /\
    (verifyRulingSignature o r t n s env st = Ok true ->
     reason = ErrorString "nonce used" /\ error_kind reason = Some NonceAlreadyUsed).
Proof.
  intros Hu. rewrite transact_submit, Hu.
  destruct (verifyRulingSignature o r t n s env st) as [[|]|reason];
    eexists; (split; [reflexivity|]); try discriminate.
  intros _. split; reflexivity.
Qed.

Lemma burned_not_accepted st txs o n :
  used (usedNonces st) (nonce_key o n) = true ->
  (o, n) ∉ accepted txs (receipts st txs).
Proof.
  revert st. induction txs as [|[env c] txs IH]; intros st Hu.
  - cbn. apply not_elem_of_nil.
  - rewrite receipts_cons.
    pose proof (IH _ (transact_used_mono env c st _ Hu)) as Hrest.
    destruct c as [|k0|a|o' r t n' s|o' r t n' s];
      try (cbn [accepted]; exact Hrest).
    cbn [accepted].
    destruct (snd (transact env (CallSubmitRuling o' r t n' s) st)) as [v evs|reason] eqn:E;
      [|exact Hrest].
    apply not_elem_of_cons. split; [|exact Hrest].
    intros Heq. injection Heq as Ho Hn. subst o' n'.
    destruct (burned_submit_fails env st o r t n s Hu) as (reason & Hf & _).
    rewrite Hf in E. discriminate.
Qed.

Lemma accepted_NoDup st txs : NoDup (accepted txs (receipts st txs)).
Proof.
  revert st. induction txs as [|[env c] txs IH]; intros st.
  - cbn. apply NoDup_nil_2.
  - rewrite receipts_cons.
    destruct c as [|k0|a|o r t n s|o r t n s];
      try (cbn [accepted]; apply IH).
    cbn [accepted].
    destruct (snd (transact env (CallSubmitRuling o r t n s) st)) as [v evs|reason] eqn:E;
      [|apply IH].
    apply NoDup_cons_2; [|apply IH].
    apply burned_not_accepted.
    apply accepted_burns. rewrite E. reflexivity.
Qed.

Lemma accepted_stays_burned st txs o n :
  (o, n) ∈ accepted txs (receipts st txs) ->
  used (usedNonces (final st txs)) (nonce_key o n) = true.
Proof.
  revert st. induction txs as [|[env c] txs IH]; intros st.
  - cbn. intros H. apply elem_of_nil in H. destruct H.
  - rewrite receipts_cons, final_cons.
    destruct c as [|k0|a|o' r t n' s|o' r t n' s];
      try (cbn [accepted]; apply IH).
    cbn [accepted].
    destruct (snd (transact env (CallSubmitRuling o' r t n' s) st)) as [v evs|reason] eqn:E;
      [|apply IH].
    intros [Heq|Hin]%elem_of_cons; [|apply IH, Hin].
    injection Heq as Ho Hn. subst o' n'.
    apply run_used_mono, accepted_burns. rewrite E. reflexivity.
Qed.

End ReplayRecord.

(** C1 as stated fails: the error of a later submission with an accepted
    [(orderId, nonce)] is that of the first check it fails.  The ruling
    accepted at [T + 100] and submitted again, unchanged, at [T + 4000]
    reverts with "signature expired"; submitted again after a rotation it
    reverts with "bad signature"; neither is NonceAlreadyUsed. *)
Lemma resubmission_fails_verification_first :
  receipts (constructor Toy.A)
    [ (Toy.at_time 5 (Toy.T + 100),
       CallSubmitRuling 1 Toy.FAVOR_BUYER Toy.T 0x99
         (Toy.signed_by Toy.A 1 Toy.FAVOR_BUYER Toy.T 0x99));
      (Toy.at_time 5 (Toy.T + 4000),
       CallSubmitRuling 1 Toy.FAVOR_BUYER Toy.T 0x99
         (Toy.signed_by Toy.A 1 Toy.FAVOR_BUYER Toy.T 0x99)) ] =
  [ Success RetNone [RulingSubmitted 1 Toy.FAVOR_BUYER Toy.T 0x99 5];
    Failure (ErrorString "signature expired") ] /\
  receipts (constructor Toy.A)
    [ (Toy.at_time 5 (Toy.T + 100),
       CallSubmitRuling 1 Toy.FAVOR_BUYER Toy.T 0x99
         (Toy.signed_by Toy.A 1 Toy.FAVOR_BUYER Toy.T 0x99));
      (Toy.at_time Toy.A (Toy.T + 150), CallSetArbitrator Toy.B);
      (Toy.at_time 5 (Toy.T + 200),
       CallSubmitRuling 1 Toy.FAVOR_BUYER Toy.T 0x99
         (Toy.signed_by Toy.A 1 Toy.FAVOR_BUYER Toy.T 0x99)) ] =
  [ Success RetNone [RulingSubmitted 1 Toy.FAVOR_BUYER Toy.T 0x99 5];
    Success RetNone [ArbitratorChanged Toy.B];
    Failure (ErrorString "bad signature") ] /\
  error_kind (ErrorString "signature expired") <> Some NonceAlreadyUsed /\
  error_kind (ErrorString "bad signature") <> Some NonceAlreadyUsed.
Proof.
  split; [vm_compute; reflexivity|].
  split; [vm_compute; reflexivity|].
  split; vm_compute; discriminate.
Qed.

(** The reason of a rejected submission whose deadline does not overflow
    and whose verification does not return true: the expiry revert when
    the deadline has passed, otherwise the library's revert for an
    unrecoverable signature or "bad signature" for another signer. *)
Lemma unverified_submit_reason `{P : Primitives} env st o r t n s reason :
  snd (transact env (CallSubmitRuling o r t n s) st) = Failure reason ->
  t + 3600 <= UINT256_MAX ->
  verifyRulingSignature o r t n s env st <> Ok true ->
  (t + 3600 < block_timestamp env /\
   reason = ErrorString "signature expired" /\
   error_kind reason = Some SignatureExpired) \/
  (block_timestamp env <= t + 3600 /\
   error_kind reason = Some InvalidSignature /\
   match ECDSA_recover (ruling_digest o r t n) s with
   | Recovered signer =>
       signer <> arbitrator st /\ reason = ErrorString "bad signature"
   | RecoverFailed e => reason = ECDSARevert e
   end).
Proof.
  rewrite transact_submit, verify_eq. unfold signer_check.
  intros Hr Hmax. apply Z.leb_le in Hmax. rewrite Hmax in *.
  destruct (block_timestamp env <=? t + 3600) eqn:Hnow.
  - apply Z.leb_le in Hnow. intros Hbad. right. split; [exact Hnow|].
    destruct (ECDSA_recover (ruling_digest o r t n) s) as [signer|e].
    + destruct (signer =? arbitrator st) eqn:Hs; [congruence|].
      apply Z.eqb_neq in Hs. cbn [snd] in Hr. injection Hr as <-.
      repeat split. exact Hs.
    + cbn [snd] in Hr. injection Hr as <-. split; reflexivity.
  - apply Z.leb_gt in Hnow. intros _. left.
    cbn [snd] in Hr. injection Hr as <-. repeat split. exact Hnow.
Qed.

(** C1 (amended): over any history of calls from any storage, the
    accepted submissions have pairwise distinct [(orderId, nonce)] pairs
    (each pair is accepted at most once), no entry of the replay record
    is ever lost, and once a pair has been accepted every later submit
    with that pair, whatever its ruling, timestamp and signature and
    whatever happened in between, reverts with storage unchanged.  The
    revert is "nonce used" (NonceAlreadyUsed) whenever the submission
    passes verification.  When it does not, and the deadline
    [timestamp + 3600] does not overflow, the revert is that of the
    verification: "signature expired" (SignatureExpired) when the
    deadline has passed, and otherwise an InvalidSignature revert, the
    library's for a signature that cannot be recovered and "bad
    signature" for one that recovers to another identity. *)
Theorem replay_protection `{P : Primitives} st txs :
  NoDup (accepted txs (receipts st txs)) /\
  (forall k, used (usedNonces st) k = true ->
             used (usedNonces (final st txs)) k = true) /\
  (forall o n,
      (o, n) ∈ accepted txs (receipts st txs) ->
      forall later env r t s,
        used (usedNonces (final st (txs ++ later))) (nonce_key o n) = true /\
        exists reason,
          transact env (CallSubmitRuling o r t n s) (final st (txs ++ later)) =
            (final st (txs ++ later), Failure reason) /\
          (verifyRulingSignature o r t n s env (final st (txs ++ later)) = Ok true ->
           reason = ErrorString "nonce used" /\
           error_kind reason = Some NonceAlreadyUsed) /\
          (t + 3600 <= UINT256_MAX ->
           verifyRulingSignature o r t n s env (final st (txs ++ later)) <> Ok true ->
           (t + 3600 < block_timestamp env /\
            reason = ErrorString "signature expired" /\
            error_kind reason = Some SignatureExpired) \/
           (block_timestamp env <= t + 3600 /\
            error_kind reason = Some InvalidSignature /\
            match ECDSA_recover (ruling_digest o r t n) s with
            | Recovered signer =>
                signer <> arbitrator (final st (txs ++ later)) /\
                reason = ErrorString "bad signature"
            | RecoverFailed e => reason = ECDSARevert e
            end))).
Proof.
  split; [apply accepted_NoDup|].
  split; [intros k; apply run_used_mono|].
  intros o n Hacc later env r t s.
  assert (Hu : used (usedNonces (final st (txs ++ later))) (nonce_key o n) = true).
  { rewrite final_app. apply run_used_mono, accepted_stays_burned, Hacc. }
  split; [exact Hu|].
  destruct (burned_submit_fails env _ o r t n s Hu) as (reason & Htx & Hok).
  exists reason. split; [exact Htx|]. split; [exact Hok|].
  intros Hmax Hbad.
  apply (unverified_submit_reason env _ o r t n s reason); [|exact Hmax|exact Hbad].
  rewrite Htx. reflexivity.
Qed.

(** The accepted ruling of the scenario, submitted again by another
    caller at [T + 200] under a second valid signature of [A]. *)
Lemma replay_protection_witness :
  verifyRulingSignature 1 Toy.FAVOR_BUYER Toy.T 0x99
    (Toy.signed_again_by Toy.A 1 Toy.FAVOR_BUYER Toy.T 0x99)
    (Toy.at_time 6 (Toy.T + 200))
    (final (constructor Toy.A)
       ([ (Toy.at_time 5 (Toy.T + 100),
           CallSubmitRuling 1 Toy.FAVOR_BUYER Toy.T 0x99
             (Toy.signed_by Toy.A 1 Toy.FAVOR_BUYER Toy.T 0x99)) ] ++ [])) = Ok true /\
  Toy.signed_again_by Toy.A 1 Toy.FAVOR_BUYER Toy.T 0x99 <>
  Toy.signed_by Toy.A 1 Toy.FAVOR_BUYER Toy.T 0x99 /\
  exists reason,
    snd (transact (Toy.at_time 6 (Toy.T + 200))
           (CallSubmitRuling 1 Toy.FAVOR_BUYER Toy.T 0x99
              (Toy.signed_again_by Toy.A 1 Toy.FAVOR_BUYER Toy.T 0x99))
           (final (constructor Toy.A)
              ([ (Toy.at_time 5 (Toy.T + 100),
                  CallSubmitRuling 1 Toy.FAVOR_BUYER Toy.T 0x99
                    (Toy.signed_by Toy.A 1 Toy.FAVOR_BUYER Toy.T 0x99)) ] ++ []))) =
    Failure reason /\
    reason = ErrorString "nonce used".
Proof.
  assert (Hv : verifyRulingSignature 1 Toy.FAVOR_BUYER Toy.T 0x99
    (Toy.signed_again_by Toy.A 1 Toy.FAVOR_BUYER Toy.T 0x99)
    (Toy.at_time 6 (Toy.T + 200))
    (final (constructor Toy.A)
       ([ (Toy.at_time 5 (Toy.T + 100),
           CallSubmitRuling 1 Toy.FAVOR_BUYER Toy.T 0x99
             (Toy.signed_by Toy.A 1 Toy.FAVOR_BUYER Toy.T 0x99)) ] ++ [])) = Ok true)
    by (vm_compute; reflexivity).
  split; [exact Hv|]. split; [vm_compute; discriminate|].
  destruct (proj2 (proj2 (replay_protection (P := Toy.primitives) (constructor Toy.A)
              [ (Toy.at_time 5 (Toy.T + 100),
                 CallSubmitRuling 1 Toy.FAVOR_BUYER Toy.T 0x99
                   (Toy.signed_by Toy.A 1 Toy.FAVOR_BUYER Toy.T 0x99)) ]))
              1 0x99) with (later := @nil (Env * Call))
              (env := Toy.at_time 6 (Toy.T + 200)) (r := Toy.FAVOR_BUYER) (t := Toy.T)
              (s := Toy.signed_again_by Toy.A 1 Toy.FAVOR_BUYER Toy.T 0x99)
    as (_ & reason & Htx & Hkind & _).
  - replace (accepted _ _) with [(1, 0x99)] by (vm_compute; reflexivity).
    constructor.
  - exists reason. rewrite Htx. split; [reflexivity|].
    exact (proj1 (Hkind Hv)).
Defined.

(** ** ABI encoding of the hashed data *)

Section Encoding.

Lemma Z_of_byte_of_Z z : Z_of_byte (byte_of_Z z) = z mod 256.
Proof.
  unfold Z_of_byte, byte_of_Z.
  assert (Hr : 0 <= z mod 256 < 256) by (apply Z.mod_pos_bound; lia).
  destruct (Byte.of_N (Z.to_N (z mod 256))) as [b|] eqn:E.
  - apply Byte.to_of_N in E. rewrite E. lia.
  - apply Byte.of_N_None_iff in E. lia.
Qed.

Lemma be_bytes_length n z : List.length (be_bytes n z) = n.
Proof.
  revert z. induction n as [|n IH]; intros z; [reflexivity|].
  cbn [be_bytes]. rewrite length_app, IH. cbn. lia.
Qed.

Lemma be_value_snoc bs b : be_value (bs ++ [b]) = be_value bs * 256 + Z_of_byte b.
Proof. unfold be_value. rewrite fold_left_app. reflexivity. Qed.

(** Decoding an [n]-byte big-endian encoding gives the value back, reduced
    to [n] bytes. *)
Lemma be_value_be_bytes n z : be_value (be_bytes n z) = z mod 256 ^ Z.of_nat n.
Proof.
  revert z. induction n as [|n IH]; intros z.
  - cbn. now rewrite Z.mod_1_r.
  - cbn [be_bytes]. rewrite be_value_snoc, IH, Z_of_byte_of_Z.
    rewrite Nat2Z.inj_succ, Z.pow_succ_r by lia.
    rewrite (Z.rem_mul_r z 256 (256 ^ Z.of_nat n)) by lia. lia.
Qed.

Lemma abi_word_decode z : is_uint256 z -> be_value (abi_word z) = z.
Proof.
  intros [Hlo Hhi]. unfold abi_word. rewrite be_value_be_bytes.
  apply Z.mod_small. unfold UINT256_MAX in Hhi.
  change (256 ^ Z.of_nat 32) with (2 ^ 256). lia.
Qed.

Lemma abi_word_length z : List.length (abi_word z) = 32%nat.
Proof. apply be_bytes_length. Qed.

Lemma abi_word_inj a b :
  is_uint256 a -> is_uint256 b -> abi_word a = abi_word b -> a = b.
Proof.
  intros Ha Hb E. rewrite <- (abi_word_decode a Ha), <- (abi_word_decode b Hb).
  now rewrite E.
Qed.

Lemma abi_encode_length ws :
  List.length (abi_encode ws) = (32 * List.length ws)%nat.
Proof.
  unfold abi_encode. induction ws as [|w ws IH]; [reflexivity|].
  cbn [map concat]. rewrite length_app, abi_word_length, IH. cbn [List.length]. lia.
Qed.

Lemma abi_encode_inj ws ws' :
  Forall is_uint256 ws -> Forall is_uint256 ws' ->
  abi_encode ws = abi_encode ws' -> ws = ws'.
Proof.
  intros Hws. revert ws'. induction Hws as [|w ws Hw _ IH]; intros ws' Hws' E.
  - destruct ws' as [|w' ws']; [reflexivity|].
    apply (f_equal (@List.length byte)) in E.
    rewrite !abi_encode_length in E. cbn in E. lia.
  - destruct Hws' as [|w' ws' Hw' Hws'].
    + apply (f_equal (@List.length byte)) in E.
      rewrite !abi_encode_length in E. cbn in E. lia.
    + unfold abi_encode in E. cbn [map concat] in E.
      apply app_inj_1 in E; [|now rewrite !abi_word_length].
      destruct E as [E1 E2].
      f_equal; [apply abi_word_inj; assumption | apply IH; assumption].
Qed.

End Encoding.

(** X5: the preimage of a replay key, [abi.encodePacked(orderId, nonce)],
    is 64 bytes long and decodes back to its two fields, so two in-range
    pairs with the same preimage are the same pair: replay keys of
    different pairs can coincide only through a hash collision. *)
Theorem packed_key_round_trip o n :
  is_uint256 o -> is_uint256 n ->
  List.length (abi_encodePacked2 o n) = 64%nat /\
  be_value (firstn 32 (abi_encodePacked2 o n)) = o /\
  be_value (skipn 32 (abi_encodePacked2 o n)) = n /\
  forall o' n',
    is_uint256 o' -> is_uint256 n' ->
    abi_encodePacked2 o' n' = abi_encodePacked2 o n -> o' = o /\ n' = n.
Proof.
  intros Ho Hn. unfold abi_encodePacked2.
  split; [rewrite length_app, !abi_word_length; reflexivity|].
  split; [rewrite firstn_app, abi_word_length, Nat.sub_diag, firstn_O, app_nil_r,
            <- (abi_word_length o), firstn_all; apply abi_word_decode, Ho|].
  split; [rewrite skipn_app, abi_word_length, Nat.sub_diag, skipn_O,
            <- (abi_word_length o), skipn_all, app_nil_l; apply abi_word_decode, Hn|].
  intros o' n' Ho' Hn' E.
  apply app_inj_1 in E; [|now rewrite !abi_word_length].
  destruct E as [E1 E2].
  split; apply abi_word_inj; assumption.
Qed.

Lemma packed_key_round_trip_witness :
  be_value (firstn 32 (abi_encodePacked2 1 0x99)) = 1 /\
  be_value (skipn 32 (abi_encodePacked2 1 0x99)) = 0x99.
Proof.
  destruct (packed_key_round_trip 1 0x99) as (_ & Ho & Hn & _).
  - split; vm_compute; discriminate.
  - split; vm_compute; discriminate.
  - split; [exact Ho | exact Hn].
Defined.

(** X6: the preimage of the struct hash,
    [abi.encode(RULING_TYPEHASH, orderId, ruling, timestamp, nonce)], is
    160 bytes long and determines the four payload fields: two in-range
    payloads with the same encoding are equal field by field. *)
Theorem struct_encoding_injective `{P : Primitives} o r t n o' r' t' n' :
  Forall is_uint256 [o; r; t; n] ->
  Forall is_uint256 [o'; r'; t'; n'] ->
  List.length (abi_encode [RULING_TYPEHASH; o; r; t; n]) = 160%nat /\
  (abi_encode [RULING_TYPEHASH; o; r; t; n] =
   abi_encode [RULING_TYPEHASH; o'; r'; t'; n'] ->
   o = o' /\ r = r' /\ t = t' /\ n = n').
Proof.
  intros Hws Hws'. split; [apply abi_encode_length|].
  intros E.
  assert (E' : abi_encode [o; r; t; n] = abi_encode [o'; r'; t'; n']).
  { unfold abi_encode in *. cbn [map concat] in *.
    apply app_inj_1 in E; [exact (proj2 E) | reflexivity]. }
  apply abi_encode_inj in E'; [|assumption..].
  injection E' as -> -> -> ->. repeat split.
Qed.

Lemma struct_encoding_injective_witness :
  List.length (abi_encode [RULING_TYPEHASH; 1; Toy.FAVOR_BUYER; Toy.T; 0x99]) = 160%nat.
Proof.
  apply (struct_encoding_injective (P := Toy.primitives)
           1 Toy.FAVOR_BUYER Toy.T 0x99 1 Toy.FAVOR_BUYER Toy.T 0x99);
    repeat (constructor; [split; vm_compute; discriminate|]); constructor.
Defined.

(** ** Further properties of the entry points *)

Section Steps.
Context `{P : Primitives}.

(** Only a successful [setArbitrator] writes the arbitrator. *)
Lemma transact_arbitrator env c st :
  arbitrator (fst (transact env c st)) =
  match c with
  | CallSetArbitrator a => if msg_sender env =? arbitrator st then a else arbitrator st
  | _ => arbitrator st
  end.
Proof.
  destruct c as [|k|a|o r t n s|o r t n s]; try reflexivity.
  - rewrite transact_setArbitrator.
    destruct (msg_sender env =? arbitrator st); reflexivity.
  - rewrite transact_verify. reflexivity.
  - rewrite transact_submit.
    destruct (verifyRulingSignature o r t n s env st) as [[|]|reason];
      [destruct (used _ _)| |]; reflexivity.
Qed.

(** The receipt of a submission depends on the storage only through the
    arbitrator and the bit of the submission's own key. *)
Lemma submit_receipt_frame env st1 st2 o r t n s :
  arbitrator st1 = arbitrator st2 ->
  used (usedNonces st1) (nonce_key o n) = used (usedNonces st2) (nonce_key o n) ->
  snd (transact env (CallSubmitRuling o r t n s) st1) =
  snd (transact env (CallSubmitRuling o r t n s) st2).
Proof.
  intros Ha Hu. rewrite !transact_submit.
  replace (verifyRulingSignature o r t n s env st2)
    with (verifyRulingSignature o r t n s env st1)
    by (rewrite !verify_eq; unfold signer_check; rewrite Ha; reflexivity).
  rewrite <- Hu.
  destruct (verifyRulingSignature o r t n s env st1) as [[|]|reason];
    [destruct (used _ _)| |]; reflexivity.
Qed.

(** What an accepted submission requires and does. *)
Lemma submit_accepted_inv env st o r t n s :
  succeeded (snd (transact env (CallSubmitRuling o r t n s) st)) = true ->
  verifyRulingSignature o r t n s env st = Ok true /\
  used (usedNonces st) (nonce_key o n) = false /\
  transact env (CallSubmitRuling o r t n s) st =
  (mkStorage (arbitrator st) (<[nonce_key o n := true]> (usedNonces st)),
   Success RetNone [RulingSubmitted o r t n (msg_sender env)]).
Proof.
  rewrite transact_submit.
  destruct (verifyRulingSignature o r t n s env st) as [[|]|reason]; try discriminate.
  destruct (used _ _); [discriminate|]. repeat split.
Qed.

Lemma submit_rejected_inv env st o r t n s :
  succeeded (snd (transact env (CallSubmitRuling o r t n s) st)) = false ->
  fst (transact env (CallSubmitRuling o r t n s) st) = st.
Proof.
  rewrite transact_submit.
  destruct (verifyRulingSignature o r t n s env st) as [[|]|reason];
    [destruct (used _ _)| |]; try reflexivity; discriminate.
Qed.

End Steps.

(** X1: only the arbitrator rotates.  In every history none of whose
    calls comes from the arbitrator, each [setArbitrator] reverts with
    "only arbitrator" (Unauthorized) and the arbitrator stays who it was,
    whatever else the history verifies or submits. *)
Theorem only_arbitrator_rotates `{P : Primitives} st txs :
  callers_differ (arbitrator st) txs ->
  arbitrator (final st txs) = arbitrator st /\
  Forall2 (fun c rc =>
             forall a, c = CallSetArbitrator a ->
                       rc = Failure (ErrorString "only arbitrator"))
          (map snd txs) (receipts st txs) /\
  error_kind (ErrorString "only arbitrator") = Some Unauthorized.
Proof.
  intros Hcallers. split; [|split; [|reflexivity]].
  - revert st Hcallers. induction txs as [|[env c] txs IH]; intros st Hcallers.
    + reflexivity.
    + inversion Hcallers as [|? ? Hc Hrest]; subst. cbn [fst] in Hc.
      rewrite final_cons.
      assert (Hstep : arbitrator (fst (transact env c st)) = arbitrator st).
      { rewrite transact_arbitrator. destruct c; try reflexivity.
        apply Z.eqb_neq in Hc. rewrite Hc. reflexivity. }
      rewrite IH; [exact Hstep|]. rewrite Hstep. exact Hrest.
  - revert st Hcallers. induction txs as [|[env c] txs IH]; intros st Hcallers.
    + constructor.
    + inversion Hcallers as [|? ? Hc Hrest]; subst. cbn [fst] in Hc.
      rewrite receipts_cons. cbn [map snd].
      assert (Hstep : arbitrator (fst (transact env c st)) = arbitrator st).
      { rewrite transact_arbitrator. destruct c; try reflexivity.
        apply Z.eqb_neq in Hc. rewrite Hc. reflexivity. }
      constructor.
      * intros a ->. rewrite transact_setArbitrator.
        apply Z.eqb_neq in Hc. rewrite Hc. reflexivity.
      * apply IH. rewrite Hstep. exact Hrest.
Qed.

(** Two attempts by outsiders around an accepted relay of a ruling. *)
Lemma only_arbitrator_rotates_witness :
  arbitrator (final (constructor Toy.A)
    [ (Toy.at_time Toy.B (Toy.T + 50), CallSetArbitrator Toy.B);
      (Toy.at_time 5 (Toy.T + 100),
       CallSubmitRuling 1 Toy.FAVOR_BUYER Toy.T 0x99
         (Toy.signed_by Toy.A 1 Toy.FAVOR_BUYER Toy.T 0x99));
      (Toy.at_time 5 (Toy.T + 150), CallSetArbitrator 5) ]) = Toy.A.
Proof.
  apply (only_arbitrator_rotates (P := Toy.primitives) (constructor Toy.A)).
  unfold callers_differ.
  constructor; [vm_compute; discriminate|].
  constructor; [vm_compute; discriminate|].
  constructor; [vm_compute; discriminate|].
  constructor.
Defined.

(** X2: a submission is accepted exactly when its deadline
    [timestamp + 3600] does not overflow and has not passed, its signature
    recovers to the current arbitrator, and its replay key is unused. *)
Theorem submit_accepted_iff `{P : Primitives} env st o r t n s :
  succeeded (snd (transact env (CallSubmitRuling o r t n s) st)) = true <->
  fresh env t /\
  signed_by_identity (arbitrator st) o r t n s /\
  used (usedNonces st) (nonce_key o n) = false.
Proof.
  rewrite transact_submit, verify_eq. unfold fresh, signed_by_identity, signer_check.
  split.
  - destruct (t + 3600 <=? UINT256_MAX) eqn:Hmax; [|discriminate].
    destruct (block_timestamp env <=? t + 3600) eqn:Hnow; [|discriminate].
    apply Z.leb_le in Hmax, Hnow.
    destruct (ECDSA_recover (ruling_digest o r t n) s) as [signer|e]; [|discriminate].
    destruct (signer =? arbitrator st) eqn:Hs; [|discriminate].
    apply Z.eqb_eq in Hs. subst signer.
    destruct (used _ _); [discriminate|]. intros _. repeat split; assumption.
  - intros ([Hmax Hnow] & Hsig & Hu).
    apply Z.leb_le in Hmax, Hnow. rewrite Hmax, Hnow, Hsig, Z.eqb_refl, Hu.
    reflexivity.
Qed.

(** X3: anyone may relay a ruling.  At the same block time the outcome
    of a submission does not depend on its caller: two callers leave the
    same storage, fail with the same reason or are both accepted, and the
    emitted records differ only in the submitter field. *)
Theorem submission_relay_independent `{P : Primitives} env1 env2 st o r t n s :
  block_timestamp env1 = block_timestamp env2 ->
  fst (transact env1 (CallSubmitRuling o r t n s) st) =
  fst (transact env2 (CallSubmitRuling o r t n s) st) /\
  match snd (transact env1 (CallSubmitRuling o r t n s) st),
        snd (transact env2 (CallSubmitRuling o r t n s) st) with
  | Failure r1, Failure r2 => r1 = r2
  | Success _ evs1, Success _ evs2 =>
      evs1 = [RulingSubmitted o r t n (msg_sender env1)] /\
      evs2 = [RulingSubmitted o r t n (msg_sender env2)]
  | _, _ => False
  end.
Proof.
  intros Hnow. rewrite !transact_submit.
  replace (verifyRulingSignature o r t n s env2 st)
    with (verifyRulingSignature o r t n s env1 st)
    by (rewrite !verify_eq, Hnow; reflexivity).
  destruct (verifyRulingSignature o r t n s env1 st) as [[|]|reason];
    [destruct (used _ _)| |]; cbn [fst snd]; repeat split.
Qed.

(** The arbitrator itself and a third party relay the same ruling. *)
Lemma submission_relay_independent_witness :
  fst (transact (Toy.at_time Toy.A (Toy.T + 100))
         (CallSubmitRuling 1 Toy.FAVOR_BUYER Toy.T 0x99
            (Toy.signed_by Toy.A 1 Toy.FAVOR_BUYER Toy.T 0x99)) (constructor Toy.A)) =
  fst (transact (Toy.at_time 5 (Toy.T + 100))
         (CallSubmitRuling 1 Toy.FAVOR_BUYER Toy.T 0x99
            (Toy.signed_by Toy.A 1 Toy.FAVOR_BUYER Toy.T 0x99)) (constructor Toy.A)).
Proof.
  apply (submission_relay_independent (P := Toy.primitives)
           (Toy.at_time Toy.A (Toy.T + 100)) (Toy.at_time 5 (Toy.T + 100))
           (constructor Toy.A)).
  reflexivity.
Defined.

(** X4: a ruling dated within the last 3600 units of the [uint256] range
    cannot be verified or submitted at any time: the deadline
    [timestamp + 3600] overflows and both entry points revert with the
    arithmetic panic, whatever the signature, caller, block time and
    storage; the panic is none of the four error kinds. *)
Theorem deadline_overflow_panics `{P : Primitives} env st o r t n s :
  UINT256_MAX - 3600 < t ->
  verifyRulingSignature o r t n s env st = Revert (Panic PANIC_ARITHMETIC) /\
  transact env (CallVerifyRulingSignature o r t n s) st =
    (st, Failure (Panic PANIC_ARITHMETIC)) /\
  transact env (CallSubmitRuling o r t n s) st =
    (st, Failure (Panic PANIC_ARITHMETIC)) /\
  error_kind (Panic PANIC_ARITHMETIC) = None.
Proof.
  intros Hbig.
  assert (Hv : verifyRulingSignature o r t n s env st = Revert (Panic PANIC_ARITHMETIC)).
  { rewrite verify_eq.
    replace (t + 3600 <=? UINT256_MAX) with false by (symmetry; apply Z.leb_gt; lia).
    reflexivity. }
  rewrite transact_verify, transact_submit, Hv. repeat split.
Qed.

(** A correctly signed ruling dated at the top of the range. *)
Lemma deadline_overflow_panics_witness :
  signed_by_identity Toy.A 1 Toy.FAVOR_BUYER UINT256_MAX 0x99
    (Toy.signed_by Toy.A 1 Toy.FAVOR_BUYER UINT256_MAX 0x99) /\
  transact (Toy.at_time 5 (Toy.T + 100))
    (CallSubmitRuling 1 Toy.FAVOR_BUYER UINT256_MAX 0x99
       (Toy.signed_by Toy.A 1 Toy.FAVOR_BUYER UINT256_MAX 0x99)) (constructor Toy.A) =
  (constructor Toy.A, Failure (Panic PANIC_ARITHMETIC)).
Proof.
  split; [vm_compute; reflexivity|].
  apply (deadline_overflow_panics (P := Toy.primitives)
           (Toy.at_time 5 (Toy.T + 100)) (constructor Toy.A)).
  vm_compute. reflexivity.
Defined.

(** ** The replay record and the log over histories *)

Section Histories.
Context `{P : Primitives}.

(** A key is written only by the accepted submission it belongs to. *)
Lemma transact_used_inv env c st k :
  used (usedNonces (fst (transact env c st))) k = true ->
  used (usedNonces st) k = true \/
  exists o r t n s,
    c = CallSubmitRuling o r t n s /\
    succeeded (snd (transact env c st)) = true /\ k = nonce_key o n.
Proof.
  destruct c as [|k0|a|o r t n s|o r t n s].
  - left; assumption.
  - left; assumption.
  - rewrite transact_setArbitrator.
    destruct (msg_sender env =? arbitrator st); left; assumption.
  - rewrite transact_verify. left; assumption.
  - destruct (succeeded (snd (transact env (CallSubmitRuling o r t n s) st))) eqn:Hs.
    + destruct (submit_accepted_inv env st o r t n s Hs) as (_ & _ & Htx).
      rewrite Htx. cbn [fst usedNonces]. rewrite used_insert.
      destruct (decide (nonce_key o n = k)) as [<-|Hne]; [|left; assumption].
      intros _. right. exists o, r, t, n, s. repeat split.
    + rewrite (submit_rejected_inv env st o r t n s Hs). left; assumption.
Qed.

Lemma accepted_cons env c st txs :
  accepted ((env, c) :: txs) (receipts st ((env, c) :: txs)) =
  match c with
  | CallSubmitRuling o _ _ n _ =>
      if succeeded (snd (transact env c st))
      then (o, n) :: accepted txs (receipts (fst (transact env c st)) txs)
      else accepted txs (receipts (fst (transact env c st)) txs)
  | _ => accepted txs (receipts (fst (transact env c st)) txs)
  end.
Proof.
  rewrite receipts_cons.
  destruct c; try reflexivity.
  cbn [accepted]. destruct (snd (transact env _ st)); reflexivity.
Qed.

Lemma history_log_cons env c st txs :
  history_log (receipts st ((env, c) :: txs)) =
  emitted (snd (transact env c st)) ++
  history_log (receipts (fst (transact env c st)) txs).
Proof. rewrite receipts_cons. reflexivity. Qed.

(** What each call leaves in the log. *)
Lemma emitted_step env c st :
  emitted (snd (transact env c st)) =
  match c with
  | CallSetArbitrator a =>
      if msg_sender env =? arbitrator st then [ArbitratorChanged a] else []
  | CallSubmitRuling o r t n s =>
      if succeeded (snd (transact env c st))
      then [RulingSubmitted o r t n (msg_sender env)] else []
  | _ => []
  end.
Proof.
  destruct c as [|k0|a|o r t n s|o r t n s]; try reflexivity.
  - rewrite transact_setArbitrator.
    destruct (msg_sender env =? arbitrator st); reflexivity.
  - rewrite transact_verify. cbn [snd].
    destruct (verifyRulingSignature o r t n s env st); reflexivity.
  - rewrite transact_submit.
    destruct (verifyRulingSignature o r t n s env st) as [[|]|reason];
      [destruct (used _ _)| |]; reflexivity.
Qed.

End Histories.

(** X7: a replay key is burned only by acceptance.  After any history a
    key reads used exactly when it was used at the start or is the key of
    a submission the history accepted: no rejected submission,
    verification or rotation ever burns a nonce, and none is ever
    released. *)
Theorem burned_iff_accepted `{P : Primitives} st txs k :
  used (usedNonces (final st txs)) k = true <->
  used (usedNonces st) k = true \/
  exists o n, (o, n) ∈ accepted txs (receipts st txs) /\ k = nonce_key o n.
Proof.
  split.
  - revert st. induction txs as [|[env c] txs IH]; intros st.
    + intros H. left. exact H.
    + rewrite final_cons, accepted_cons. intros H.
      destruct (IH _ H) as [Hstep|(o & n & Hin & ->)].
      * destruct (transact_used_inv env c st k Hstep)
          as [H0|(o & r & t & n & s & -> & Hs & ->)]; [left; exact H0|].
        right. exists o, n. rewrite Hs. split; [constructor | reflexivity].
      * right. exists o, n. split; [|reflexivity].
        destruct c as [|k0|a|o' r t n' s|o' r t n' s]; try exact Hin.
        destruct (succeeded _); [apply elem_of_cons; right|]; exact Hin.
  - intros [H|(o & n & Hin & ->)].
    + apply run_used_mono, H.
    + apply accepted_stays_burned, Hin.
Qed.

(** X8: the replay record counts the accepted submissions.  After any
    history the number of used keys is the number at the start plus the
    number of submissions the history accepted. *)
Theorem record_counts_accepted `{P : Primitives} st txs :
  record_size (final st txs) =
  (record_size st + List.length (accepted txs (receipts st txs)))%nat.
Proof.
  revert st. induction txs as [|[env c] txs IH]; intros st.
  - cbn. lia.
  - rewrite final_cons, accepted_cons, IH.
    assert (Hsame : forall st', usedNonces st' = usedNonces st ->
                                record_size st' = record_size st).
    { intros st' E. unfold record_size. now rewrite E. }
    destruct c as [|k0|a|o r t n s|o r t n s].
    + reflexivity.
    + reflexivity.
    + rewrite transact_setArbitrator.
      destruct (msg_sender env =? arbitrator st); reflexivity.
    + rewrite transact_verify. reflexivity.
    + destruct (succeeded (snd (transact env (CallSubmitRuling o r t n s) st))) eqn:Hs.
      * destruct (submit_accepted_inv env st o r t n s Hs) as (_ & Hu & Htx).
        rewrite Htx. cbn [fst List.length]. unfold record_size at 1.
        cbn [usedNonces]. rewrite (burned_insert_fresh _ _ Hu).
        unfold record_size. lia.
      * rewrite (submit_rejected_inv env st o r t n s Hs). reflexivity.
Qed.

(** X9: the rotation records tell who the arbitrator is.  After any
    history the arbitrator in storage is the identity of the last
    [ArbitratorChanged] record the history emitted, or the initial
    arbitrator when it emitted none. *)
Theorem log_determines_arbitrator `{P : Primitives} st txs :
  arbitrator (final st txs) =
  replay_arbitrator (arbitrator st) (history_log (receipts st txs)).
Proof.
  revert st. induction txs as [|[env c] txs IH]; intros st.
  - reflexivity.
  - rewrite final_cons, history_log_cons, IH.
    unfold replay_arbitrator. rewrite fold_left_app. f_equal.
    rewrite transact_arbitrator, emitted_step.
    destruct c as [|k0|a|o r t n s|o r t n s]; try reflexivity.
    + destruct (msg_sender env =? arbitrator st); reflexivity.
    + destruct (succeeded _); reflexivity.
Qed.

(** X10: the submission records are the accepted submissions.  The
    [(orderId, nonce)] pairs of the [RulingSubmitted] records a history
    emits are, in order, the pairs of the submissions it accepted. *)
Theorem log_lists_accepted `{P : Primitives} st txs :
  submitted_pairs (history_log (receipts st txs)) =
  accepted txs (receipts st txs).
Proof.
  revert st. induction txs as [|[env c] txs IH]; intros st.
  - reflexivity.
  - rewrite history_log_cons, accepted_cons.
    unfold submitted_pairs in *. rewrite omap_app, IH, emitted_step.
    destruct c as [|k0|a|o r t n s|o r t n s]; try reflexivity.
    + destruct (msg_sender env =? arbitrator st); reflexivity.
    + destruct (succeeded _); reflexivity.
Qed.

(** ** Composition of calls *)

(** X11: a submission reads the storage only through the arbitrator and
    its own replay key.  In two storages with the same arbitrator in which
    the key of the payload has the same status, the same submission in the
    same environment has the same receipt, whatever other keys are
    burned. *)
Theorem submission_reads_only_its_key `{P : Primitives} env st1 st2 o r t n s :
  arbitrator st1 = arbitrator st2 ->
  used (usedNonces st1) (nonce_key o n) = used (usedNonces st2) (nonce_key o n) ->
  snd (transact env (CallSubmitRuling o r t n s) st1) =
  snd (transact env (CallSubmitRuling o r t n s) st2) /\
  used (usedNonces (fst (transact env (CallSubmitRuling o r t n s) st1))) (nonce_key o n) =
  used (usedNonces (fst (transact env (CallSubmitRuling o r t n s) st2))) (nonce_key o n).
Proof.
  intros Ha Hu.
  pose proof (submit_receipt_frame env st1 st2 o r t n s Ha Hu) as Hr.
  split; [exact Hr|].
  destruct (succeeded (snd (transact env (CallSubmitRuling o r t n s) st1))) eqn:Hs1.
  - assert (Hs2 := Hs1). rewrite Hr in Hs2.
    destruct (submit_accepted_inv env st1 o r t n s Hs1) as (_ & _ & E1).
    destruct (submit_accepted_inv env st2 o r t n s Hs2) as (_ & _ & E2).
    rewrite E1, E2. cbn [fst usedNonces]. rewrite !used_insert.
    destruct (decide _); congruence.
  - assert (Hs2 := Hs1). rewrite Hr in Hs2.
    rewrite (submit_rejected_inv env st1 o r t n s Hs1),
            (submit_rejected_inv env st2 o r t n s Hs2). exact Hu.
Qed.

(** The ruling for nonce [0xAA], against the fresh contract and against
    one in which nonce [0x99] of the same order is burned. *)
Lemma submission_reads_only_its_key_witness :
  snd (transact (Toy.at_time 5 (Toy.T + 100))
         (CallSubmitRuling 1 Toy.FAVOR_BUYER Toy.T 0xAA
            (Toy.signed_by Toy.A 1 Toy.FAVOR_BUYER Toy.T 0xAA))
         (constructor Toy.A)) =
  snd (transact (Toy.at_time 5 (Toy.T + 100))
         (CallSubmitRuling 1 Toy.FAVOR_BUYER Toy.T 0xAA
            (Toy.signed_by Toy.A 1 Toy.FAVOR_BUYER Toy.T 0xAA))
         (mkStorage Toy.A (<[nonce_key 1 0x99 := true]> ∅))).
Proof.
  apply (submission_reads_only_its_key (P := Toy.primitives)
           (Toy.at_time 5 (Toy.T + 100)) (constructor Toy.A)
           (mkStorage Toy.A (<[nonce_key 1 0x99 := true]> ∅))).
  - reflexivity.
  - vm_compute. reflexivity.
Defined.

(** X12: handing the role over and back restores the storage.  When the
    arbitrator rotates to [b] and [b] rotates back, both calls succeed and
    the storage is exactly the initial one, burned keys included. *)
Theorem rotation_round_trip `{P : Primitives} env1 env2 st b :
  msg_sender env1 = arbitrator st ->
  msg_sender env2 = b ->
  run st [ (env1, CallSetArbitrator b);
           (env2, CallSetArbitrator (arbitrator st)) ] =
  (st, [ Success RetNone [ArbitratorChanged b];
         Success RetNone [ArbitratorChanged (arbitrator st)] ]).
Proof.
  intros H1 H2. cbn [run].
  rewrite transact_setArbitrator.
  apply Z.eqb_eq in H1. rewrite H1.
  rewrite transact_setArbitrator. cbn [arbitrator usedNonces].
  apply Z.eqb_eq in H2. rewrite H2.
  destruct st; reflexivity.
Qed.

Lemma rotation_round_trip_witness :
  fst (run (mkStorage Toy.A (<[nonce_key 1 0x99 := true]> ∅))
         [ (Toy.at_time Toy.A (Toy.T + 300), CallSetArbitrator Toy.B);
           (Toy.at_time Toy.B (Toy.T + 400), CallSetArbitrator Toy.A) ]) =
  mkStorage Toy.A (<[nonce_key 1 0x99 := true]> ∅).
Proof.
  rewrite (rotation_round_trip (P := Toy.primitives)
             (Toy.at_time Toy.A (Toy.T + 300)) (Toy.at_time Toy.B (Toy.T + 400))
             (mkStorage Toy.A (<[nonce_key 1 0x99 := true]> ∅)) Toy.B);
    reflexivity.
Defined.

(** X13: submissions with different replay keys commute.  Executed in
    either order, each in its own environment, two such submissions get
    the same receipts and leave the same storage. *)
Theorem submissions_commute `{P : Primitives}
    env1 env2 st o1 r1 t1 n1 s1 o2 r2 t2 n2 s2 :
  nonce_key o1 n1 <> nonce_key o2 n2 ->
  exists rc1 rc2,
    receipts st [ (env1, CallSubmitRuling o1 r1 t1 n1 s1);
                  (env2, CallSubmitRuling o2 r2 t2 n2 s2) ] = [rc1; rc2] /\
    receipts st [ (env2, CallSubmitRuling o2 r2 t2 n2 s2);
                  (env1, CallSubmitRuling o1 r1 t1 n1 s1) ] = [rc2; rc1] /\
    final st [ (env1, CallSubmitRuling o1 r1 t1 n1 s1);
               (env2, CallSubmitRuling o2 r2 t2 n2 s2) ] =
    final st [ (env2, CallSubmitRuling o2 r2 t2 n2 s2);
               (env1, CallSubmitRuling o1 r1 t1 n1 s1) ].
Proof.
  intros Hne.
  set (c1 := CallSubmitRuling o1 r1 t1 n1 s1).
  set (c2 := CallSubmitRuling o2 r2 t2 n2 s2).
  assert (Hother : forall env st0 o r t n s k,
             k <> nonce_key o n ->
             arbitrator (fst (transact env (CallSubmitRuling o r t n s) st0)) = arbitrator st0 /\
             used (usedNonces (fst (transact env (CallSubmitRuling o r t n s) st0))) k =
             used (usedNonces st0) k).
  { intros env st0 o r t n s k Hk.
    destruct (succeeded (snd (transact env (CallSubmitRuling o r t n s) st0))) eqn:Hs.
    - destruct (submit_accepted_inv env st0 o r t n s Hs) as (_ & _ & E).
      rewrite E. cbn [fst usedNonces arbitrator]. rewrite used_insert.
      destruct (decide _); [congruence|]. split; reflexivity.
    - rewrite (submit_rejected_inv env st0 o r t n s Hs). split; reflexivity. }
  assert (H12 : snd (transact env2 c2 (fst (transact env1 c1 st))) = snd (transact env2 c2 st)).
  { destruct (Hother env1 st o1 r1 t1 n1 s1 (nonce_key o2 n2)) as [Ha Hu]; [congruence|].
    apply submit_receipt_frame; assumption. }
  assert (H21 : snd (transact env1 c1 (fst (transact env2 c2 st))) = snd (transact env1 c1 st)).
  { destruct (Hother env2 st o2 r2 t2 n2 s2 (nonce_key o1 n1)) as [Ha Hu]; [congruence|].
    apply submit_receipt_frame; assumption. }
  exists (snd (transact env1 c1 st)), (snd (transact env2 c2 st)).
  rewrite !receipts_cons, !final_cons, H12, H21.
  split; [reflexivity|]. split; [reflexivity|].
  unfold final. cbn [run fst]. subst c1 c2.
  destruct (succeeded (snd (transact env1 (CallSubmitRuling o1 r1 t1 n1 s1) st))) eqn:Hs1;
    destruct (succeeded (snd (transact env2 (CallSubmitRuling o2 r2 t2 n2 s2) st))) eqn:Hs2.
  - assert (Hs1' := Hs1). rewrite <- H21 in Hs1'.
    assert (Hs2' := Hs2). rewrite <- H12 in Hs2'.
    destruct (submit_accepted_inv _ _ _ _ _ _ _ Hs1) as (_ & _ & E1).
    destruct (submit_accepted_inv _ _ _ _ _ _ _ Hs2) as (_ & _ & E2).
    destruct (submit_accepted_inv _ _ _ _ _ _ _ Hs1') as (_ & _ & E1').
    destruct (submit_accepted_inv _ _ _ _ _ _ _ Hs2') as (_ & _ & E2').
    rewrite E2', E1'. rewrite E1, E2.
    cbn [fst arbitrator usedNonces]. f_equal.
    apply insert_insert_ne. congruence.
  - assert (Hs2' := Hs2). rewrite <- H12 in Hs2'.
    rewrite (submit_rejected_inv _ _ _ _ _ _ _ Hs2').
    rewrite (submit_rejected_inv _ _ _ _ _ _ _ Hs2). reflexivity.
  - assert (Hs1' := Hs1). rewrite <- H21 in Hs1'.
    rewrite (submit_rejected_inv _ _ _ _ _ _ _ Hs1').
    rewrite (submit_rejected_inv _ _ _ _ _ _ _ Hs1). reflexivity.
  - assert (Hs1' := Hs1). rewrite <- H21 in Hs1'.
    assert (Hs2' := Hs2). rewrite <- H12 in Hs2'.
    rewrite (submit_rejected_inv _ _ _ _ _ _ _ Hs2').
    rewrite (submit_rejected_inv _ _ _ _ _ _ _ Hs1').
    rewrite (submit_rejected_inv _ _ _ _ _ _ _ Hs1).
    rewrite (submit_rejected_inv _ _ _ _ _ _ _ Hs2). reflexivity.
Qed.

(** The rulings for nonces [0x99] and [0xAA], relayed in both orders. *)
Lemma submissions_commute_witness :
  final (constructor Toy.A)
    [ (Toy.at_time 5 (Toy.T + 100),
       CallSubmitRuling 1 Toy.FAVOR_BUYER Toy.T 0x99
         (Toy.signed_by Toy.A 1 Toy.FAVOR_BUYER Toy.T 0x99));
      (Toy.at_time 6 (Toy.T + 200),
       CallSubmitRuling 1 Toy.FAVOR_BUYER Toy.T 0xAA
         (Toy.signed_by Toy.A 1 Toy.FAVOR_BUYER Toy.T 0xAA)) ] =
  final (constructor Toy.A)
    [ (Toy.at_time 6 (Toy.T + 200),
       CallSubmitRuling 1 Toy.FAVOR_BUYER Toy.T 0xAA
         (Toy.signed_by Toy.A 1 Toy.FAVOR_BUYER Toy.T 0xAA));
      (Toy.at_time 5 (Toy.T + 100),
       CallSubmitRuling 1 Toy.FAVOR_BUYER Toy.T 0x99
         (Toy.signed_by Toy.A 1 Toy.FAVOR_BUYER Toy.T 0x99)) ].
Proof.
  destruct (submissions_commute (P := Toy.primitives)
              (Toy.at_time 5 (Toy.T + 100)) (Toy.at_time 6 (Toy.T + 200))
              (constructor Toy.A)
              1 Toy.FAVOR_BUYER Toy.T 0x99
              (Toy.signed_by Toy.A 1 Toy.FAVOR_BUYER Toy.T 0x99)
              1 Toy.FAVOR_BUYER Toy.T 0xAA
              (Toy.signed_by Toy.A 1 Toy.FAVOR_BUYER Toy.T 0xAA))
    as (rc1 & rc2 & _ & _ & Hfinal).
  - vm_compute. discriminate.
  - exact Hfinal.
Defined.

(** ** The reverts of the entry points *)

(** The reverts raised inside the function bodies. *)
Lemma body_reverts `{P : Primitives} env c st reason :
  snd (transact env c st) = Failure reason ->
  may_revert_with c reason /\
  fst (transact env c st) = st /\
  (error_kind reason = None -> reason = Panic PANIC_ARITHMETIC).
Proof.
  assert (Hverify : forall o r t n s rsn,
             verifyRulingSignature o r t n s env st = Revert rsn ->
             verification_revert t rsn).
  { intros o r t n s rsn. rewrite verify_eq. unfold signer_check, verification_revert.
    destruct (t + 3600 <=? UINT256_MAX) eqn:Hmax.
    - destruct (block_timestamp env <=? t + 3600).
      + destruct (ECDSA_recover _ s) as [signer|e]; [discriminate|].
        intros [= <-]. right; right. eauto.
      + intros [= <-]. left. reflexivity.
    - intros [= <-]. right; left. apply Z.leb_gt in Hmax. split; [reflexivity | lia]. }
  assert (Hkind : forall t rsn,
             verification_revert t rsn ->
             error_kind rsn = None -> rsn = Panic PANIC_ARITHMETIC).
  { intros t rsn [->|[[-> _]|[e ->]]]; cbn; congruence. }
  destruct c as [|k|a|o r t n s|o r t n s].
  - discriminate.
  - discriminate.
  - rewrite transact_setArbitrator.
    destruct (msg_sender env =? arbitrator st); [discriminate|].
    intros [= <-]. repeat split. cbn. discriminate.
  - rewrite transact_verify. cbn [fst snd may_revert_with].
    destruct (verifyRulingSignature o r t n s env st) as [b|rsn] eqn:Hv; [discriminate|].
    intros [= <-]. pose proof (Hverify _ _ _ _ _ _ Hv) as Hr.
    split; [exact Hr|]. split; [reflexivity | exact (Hkind _ _ Hr)].
  - rewrite transact_submit. cbn [may_revert_with].
    destruct (verifyRulingSignature o r t n s env st) as [[|]|rsn] eqn:Hv.
    + destruct (used _ _); [|discriminate].
      intros [= <-]. repeat split; [right; right; reflexivity | cbn; discriminate].
    + intros [= <-]. repeat split; [right; left; reflexivity | cbn; discriminate].
    + intros [= <-]. pose proof (Hverify _ _ _ _ _ _ Hv) as Hr.
      split; [left; exact Hr|]. split; [reflexivity | exact (Hkind _ _ Hr)].
Qed.

(** X14: every failed message is accounted for.  A message is refused
    at the boundary, with storage untouched, exactly when it carries
    value, does not decode to a call, or has an argument outside its
    type.  Every other message enters a function body, and a revert from
    there is: for [setArbitrator] only "only arbitrator"; for
    [verifyRulingSignature] only "signature expired", the signature
    library's error, or the arithmetic panic when [timestamp + 3600]
    overflows; for [submitRuling] one of these or "bad signature" or
    "nonce used"; the getters never revert in their body.  Such a revert
    leaves the storage as it was, and the panic is the only one of them
    outside the four error kinds. *)
Theorem reverts_are_classified `{P : Primitives} env m st :
  match deliver env m st with
  | (st', Refused) =>
      st' = st /\
      (msg_value m <> 0 \/ msg_call m = None \/
       exists c, msg_call m = Some c /\ well_typed c = false)
  | (st', Entered (Failure reason)) =>
      st' = st /\
      msg_value m = 0 /\
      exists c, msg_call m = Some c /\ well_typed c = true /\
                may_revert_with c reason /\
                (error_kind reason = None -> reason = Panic PANIC_ARITHMETIC)
  | (st', Entered (Success _ _)) =>
      msg_value m = 0 /\
      exists c, msg_call m = Some c /\ well_typed c = true
  end.
Proof.
  unfold deliver.
  destruct (msg_value m =? 0) eqn:Hv.
  - apply Z.eqb_eq in Hv.
    destruct (msg_call m) as [c|] eqn:Hc; [|split; [reflexivity | right; left; reflexivity]].
    destruct (well_typed c) eqn:Hw; [|split; [reflexivity | right; right; eauto]].
    destruct (transact env c st) as [st' [v evs|reason]] eqn:Ht.
    + split; [exact Hv | eauto].
    + destruct (body_reverts env c st reason) as (Hr & Hst & Hk).
      { rewrite Ht. reflexivity. }
      rewrite Ht in Hst. cbn [fst] in Hst.
      split; [exact Hst|]. split; [exact Hv|]. exists c. repeat split; assumption.
  - apply Z.eqb_neq in Hv. split; [reflexivity | left; exact Hv].
Qed.

(** A getter called with value attached, a ruling code of 256, and the
    rejected rotation of the scenario. *)
Lemma reverts_are_classified_witness :
  deliver (Toy.at_time 5 (Toy.T + 300)) (mkMessage 1 (Some CallArbitrator))
    (constructor Toy.A) = (constructor Toy.A, Refused) /\
  deliver (Toy.at_time 5 (Toy.T + 100))
    (mkMessage 0 (Some (CallSubmitRuling 1 256 Toy.T 0x99
                          (Toy.signed_by Toy.A 1 256 Toy.T 0x99))))
    (constructor Toy.A) = (constructor Toy.A, Refused) /\
  fst (deliver (Toy.at_time 5 (Toy.T + 300))
         (mkMessage 0 (Some (CallSetArbitrator Toy.B))) (constructor Toy.A)) =
  constructor Toy.A.
Proof.
  split; [reflexivity|]. split; [reflexivity|].
  pose proof (reverts_are_classified (P := Toy.primitives)
                (Toy.at_time 5 (Toy.T + 300))
                (mkMessage 0 (Some (CallSetArbitrator Toy.B))) (constructor Toy.A)) as H.
  assert (E : snd (deliver (Toy.at_time 5 (Toy.T + 300))
                     (mkMessage 0 (Some (CallSetArbitrator Toy.B))) (constructor Toy.A)) =
              Entered (Failure (ErrorString "only arbitrator")))
    by (vm_compute; reflexivity).
  destruct (deliver _ _ _) as [st' [[v evs|reason]|]]; cbn [snd] in E; try discriminate E.
  exact (proj1 H).
Defined.
